(** * UEFI System Table bootstrap of qiling: [qiling/os/uefi/st.py]

    A shallow embedding of [install_configuration_table] and [initialize],
    with the guest memory, the profile and the loader's bookkeeping fields
    held in an explicit [Qiling] state, and Python exceptions as a result
    that keeps the state reached when the exception was raised. *)

From Stdlib Require Import ZArith Ascii String.
From stdpp Require Import gmap strings list.

Local Open Scope string_scope.
Local Open Scope Z_scope.

(** ** Python exceptions that the module lets propagate *)

Inductive exn : Type :=
  | KeyError (key : string)          (* mapping lookup of a missing key *)
  | ValueError (msg : string)        (* non-ASCII str given to binascii *)
  | binascii_Error (msg : string).   (* binascii.Error, a ValueError subclass *)

Inductive result (A : Type) : Type :=
  | Return (a : A)
  | Raise (e : exn).
Arguments Return {A} a.
Arguments Raise {A} e.

(** The spec's names of the two failures of the installer. *)
Definition ConfigurationNotFound (e : exn) : bool :=
  match e with KeyError _ => true | _ => false end.

Definition PayloadDecodeError (e : exn) : bool :=
  match e with ValueError _ | binascii_Error _ => true | KeyError _ => false end.

(** ** Guest memory: [ql.mem] as a finite map from addresses to bytes *)

Abbreviation byte := Z (only parsing).
Abbreviation memory := (gmap Z Z) (only parsing).

(** [ql.mem.write(address, data)]; every address is taken to be mapped. *)
Fixpoint mem_write (m : memory) (address : Z) (data : list byte) : memory :=
  match data with
  | [] => m
  | b :: data' => mem_write (<[address := b]> m) (address + 1) data'
  end.

(** [ql.mem.read(address, size)]; [None] when a byte was never written. *)
Fixpoint mem_read (m : memory) (address : Z) (size : nat) : option (list byte) :=
  match size with
  | O => Some []
  | S size' =>
      match m !! address, mem_read m (address + 1) size' with
      | Some b, Some bs => Some (b :: bs)
      | _, _ => None
      end
  end.

(** ** [binascii.unhexlify] on a [str] argument *)

Definition code (c : ascii) : Z := Z.of_N (N_of_ascii c).

(** Value of a hexadecimal digit, as [_PyLong_DigitValue] restricted to 0..15. *)
Definition digit_value (c : ascii) : option Z :=
  let n := code c in
  if (48 <=? n) && (n <=? 57) then Some (n - 48)
  else if (97 <=? n) && (n <=? 102) then Some (n - 87)
  else if (65 <=? n) && (n <=? 70) then Some (n - 55)
  else None.

Fixpoint is_ascii (s : string) : bool :=
  match s with
  | EmptyString => true
  | String c s' => (code c <? 128) && is_ascii s'
  end.

(** The conversion loop: two digits per byte, stopping at the first
    character that is no hexadecimal digit. *)
Fixpoint a2b_hex (s : string) : option (list byte) :=
  match s with
  | EmptyString => Some []
  | String c1 (String c2 s') =>
      match digit_value c1, digit_value c2 with
      | Some top, Some bot =>
          match a2b_hex s' with
          | Some d => Some ((top * 16 + bot) :: d)
          | None => None
          end
      | _, _ => None
      end
  | String _ EmptyString => None
  end.

Definition unhexlify (hexstr : string) : result (list byte) :=
  if negb (is_ascii hexstr) then
    Raise (ValueError "string argument should contain only ASCII characters")
  else if Nat.odd (String.length hexstr) then
    Raise (binascii_Error "Odd-length string")
  else
    match a2b_hex hexstr with
    | Some d => Return d
    | None => Raise (binascii_Error "Non-hexadecimal digit found")
    end.

(** The spec's notion of a well-formed hex payload, stated without the
    decoder: an even number of characters, each one of the 22 hexadecimal
    digits. *)
Definition hex_digits : string := "0123456789abcdefABCDEF".

Definition is_hex_digit (c : ascii) : bool :=
  existsb (Ascii.eqb c) (list_ascii_of_string hex_digits).

Fixpoint all_hex_digits (s : string) : bool :=
  match s with
  | EmptyString => true
  | String c s' => is_hex_digit c && all_hex_digits s'
  end.

Definition well_formed_hex (s : string) : bool :=
  Nat.even (String.length s) && all_hex_digits s.

(** ** Records of [UefiSpec] that this module builds *)

Record EFI_CONFIGURATION_TABLE : Type := {
  VendorGuid : string;
  VendorTable : Z
}.

Record EFI_SYSTEM_TABLE : Type := {
  RuntimeServices : Z;
  BootServices : Z;
  NumberOfTableEntries : Z;
  ConfigurationTable : Z
}.

(** ** The emulator instance [ql] *)

Record Qiling : Type := {
  profile : gmap string (gmap string string);        (* ql.os.profile *)
  mem : memory;                                      (* ql.mem *)
  efi_conf_table_array : list EFI_CONFIGURATION_TABLE;   (* ql.loader.* *)
  efi_conf_table_array_ptr : Z;
  efi_conf_table_data_ptr : Z;
  efi_conf_table_data_next_ptr : Z
}.

Definition set_mem (f : memory → memory) (ql : Qiling) : Qiling :=
  {| profile := profile ql; mem := f (mem ql);
     efi_conf_table_array := efi_conf_table_array ql;
     efi_conf_table_array_ptr := efi_conf_table_array_ptr ql;
     efi_conf_table_data_ptr := efi_conf_table_data_ptr ql;
     efi_conf_table_data_next_ptr := efi_conf_table_data_next_ptr ql |}.

Definition set_efi_conf_table_array
    (f : list EFI_CONFIGURATION_TABLE → list EFI_CONFIGURATION_TABLE)
    (ql : Qiling) : Qiling :=
  {| profile := profile ql; mem := mem ql;
     efi_conf_table_array := f (efi_conf_table_array ql);
     efi_conf_table_array_ptr := efi_conf_table_array_ptr ql;
     efi_conf_table_data_ptr := efi_conf_table_data_ptr ql;
     efi_conf_table_data_next_ptr := efi_conf_table_data_next_ptr ql |}.

Definition set_efi_conf_table_array_ptr (v : Z) (ql : Qiling) : Qiling :=
  {| profile := profile ql; mem := mem ql;
     efi_conf_table_array := efi_conf_table_array ql;
     efi_conf_table_array_ptr := v;
     efi_conf_table_data_ptr := efi_conf_table_data_ptr ql;
     efi_conf_table_data_next_ptr := efi_conf_table_data_next_ptr ql |}.

Definition set_efi_conf_table_data_ptr (v : Z) (ql : Qiling) : Qiling :=
  {| profile := profile ql; mem := mem ql;
     efi_conf_table_array := efi_conf_table_array ql;
     efi_conf_table_array_ptr := efi_conf_table_array_ptr ql;
     efi_conf_table_data_ptr := v;
     efi_conf_table_data_next_ptr := efi_conf_table_data_next_ptr ql |}.

Definition set_efi_conf_table_data_next_ptr (f : Z → Z) (ql : Qiling) : Qiling :=
  {| profile := profile ql; mem := mem ql;
     efi_conf_table_array := efi_conf_table_array ql;
     efi_conf_table_array_ptr := efi_conf_table_array_ptr ql;
     efi_conf_table_data_ptr := efi_conf_table_data_ptr ql;
     efi_conf_table_data_next_ptr := f (efi_conf_table_data_next_ptr ql) |}.

(** ** Statements that read or change [ql] and may raise *)

Definition M (A : Type) : Type := Qiling → result A * Qiling.

Definition ret {A} (a : A) : M A := λ ql, (Return a, ql).

Definition raise {A} (e : exn) : M A := λ ql, (Raise e, ql).

Definition bind {A B} (c : M A) (k : A → M B) : M B :=
  λ ql, match c ql with
        | (Return a, ql') => k a ql'
        | (Raise e, ql') => (Raise e, ql')
        end.

Definition gets {A} (f : Qiling → A) : M A := λ ql, (Return (f ql), ql).

Definition modify (f : Qiling → Qiling) : M unit := λ ql, (Return tt, f ql).

Definition lift {A} (r : result A) : M A := λ ql, (r, ql).

Declare Scope py_scope.
Delimit Scope py_scope with py.
Notation "'let*' x ':=' c 'in' k" := (bind c (λ x, k))
  (at level 10, x name, c at level 100, k at level 200) : py_scope.
Notation "c ';;' k" := (bind c (λ _, k))
  (at level 100, k at level 200, right associativity) : py_scope.
Local Open Scope py_scope.

(** [d[key]] on a mapping: [KeyError] when the key is missing. *)
Definition getitem {V} (d : gmap string V) (key : string) : M V :=
  match d !! key with
  | Some v => ret v
  | None => raise (KeyError key)
  end.

(** ** What the module imports from the rest of the package

    [UefiSpec] declares the ctypes structures ([sizeof], and [saveTo] through
    the bytes of an instance); [bs], [rt] and [ds] populate the three service
    tables.  None of them is part of this module: they are taken as
    parameters, the initializers as arbitrary transformers of guest memory. *)

Class UefiSpec : Type := {
  EFI_SYSTEM_TABLE_sizeof : Z;
  EFI_BOOT_SERVICES_sizeof : Z;
  EFI_RUNTIME_SERVICES_sizeof : Z;
  EFI_DXE_SERVICES_sizeof : Z;
  EFI_CONFIGURATION_TABLE_sizeof : Z;
  EFI_SYSTEM_TABLE_bytes : EFI_SYSTEM_TABLE → list byte;
  EFI_CONFIGURATION_TABLE_bytes : EFI_CONFIGURATION_TABLE → list byte;
  bs_initialize : Z → memory → memory;
  rt_initialize : Z → memory → memory;
  ds_initialize : Z → memory → memory
}.

(** A ctypes structure always serializes to [sizeof] bytes, and no structure
    has a negative size. *)
Class UefiSpecLayout (U : UefiSpec) : Prop := {
  EFI_SYSTEM_TABLE_bytes_length x :
    Z.of_nat (length (EFI_SYSTEM_TABLE_bytes x)) = EFI_SYSTEM_TABLE_sizeof;
  EFI_CONFIGURATION_TABLE_bytes_length x :
    Z.of_nat (length (EFI_CONFIGURATION_TABLE_bytes x)) = EFI_CONFIGURATION_TABLE_sizeof;
  EFI_BOOT_SERVICES_sizeof_nonneg : 0 ≤ EFI_BOOT_SERVICES_sizeof;
  EFI_RUNTIME_SERVICES_sizeof_nonneg : 0 ≤ EFI_RUNTIME_SERVICES_sizeof;
  EFI_DXE_SERVICES_sizeof_nonneg : 0 ≤ EFI_DXE_SERVICES_sizeof
}.

(** The addresses that [initialize] derives from [gST] (lines 77-80 and 103). *)
Record Layout : Type := {
  gBS : Z;
  gRT : Z;
  gDS : Z;
  cfg : Z;
  conf_data : Z
}.

Section st.
Context {U : UefiSpec}.

(** [instance.saveTo(ql, address)] *)
Definition EFI_SYSTEM_TABLE_saveTo (instance : EFI_SYSTEM_TABLE) (address : Z) : M unit :=
  modify (set_mem (λ m, mem_write m address (EFI_SYSTEM_TABLE_bytes instance))).

Definition EFI_CONFIGURATION_TABLE_saveTo
    (instance : EFI_CONFIGURATION_TABLE) (address : Z) : M unit :=
  modify (set_mem (λ m, mem_write m address (EFI_CONFIGURATION_TABLE_bytes instance))).

(** Modelled from the spec: [CoreInstallConfigurationTable] of
    [qiling.os.uefi.utils], which is not part of this module.  Following
    section 4.3 step 4 it appends (identifier, pointer) to the registry list
    and writes the same pair into the on-memory array at the index equal to
    the list length before the append; the baseline makes no capacity check
    (section 4.3, error conditions, and section 9). *)
Definition CoreInstallConfigurationTable (guid : string) (table : Z) : M unit :=
  let* confs := gets efi_conf_table_array in
  let idx := Z.of_nat (length confs) in
  let instance := {| VendorGuid := guid; VendorTable := table |} in
  modify (set_efi_conf_table_array (λ l, (l ++ [instance])%list)) ;;
  let* array_ptr := gets efi_conf_table_array_ptr in
  EFI_CONFIGURATION_TABLE_saveTo instance
    (array_ptr + idx * EFI_CONFIGURATION_TABLE_sizeof).

(** [install_configuration_table(ql, key, table)], lines 52-74; [table] is
    [None] or an address. *)
Definition install_configuration_table (key : string) (table : option Z) : M unit :=
  let* cfgtable := (let* p := gets profile in getitem p key) in
  let* guid := getitem cfgtable "Guid" in
  let* table :=
    match table with
    | None =>
        let* hexstr := getitem cfgtable "TableData" in
        let* data := lift (unhexlify hexstr) in
        let* table := gets efi_conf_table_data_next_ptr in
        modify (set_mem (λ m, mem_write m table data)) ;;
        modify (set_efi_conf_table_data_next_ptr (λ p, p + Z.of_nat (length data))) ;;
        ret table
    | Some table => ret table
    end in
  CoreInstallConfigurationTable guid table.

Definition layout (gST : Z) : Layout :=
  let gBS := gST + EFI_SYSTEM_TABLE_sizeof in
  let gRT := gBS + EFI_BOOT_SERVICES_sizeof in
  let gDS := gRT + EFI_RUNTIME_SERVICES_sizeof in
  let cfg := gDS + EFI_DXE_SERVICES_sizeof in
  let conf_data := cfg + EFI_CONFIGURATION_TABLE_sizeof * 100 in
  {| gBS := gBS; gRT := gRT; gDS := gDS; cfg := cfg; conf_data := conf_data |}.

(** [initialize(ql, gST)], lines 76-116.  The logging calls have no effect
    on [ql].  [confs] is the list object stored in
    [ql.loader.efi_conf_table_array], so [len(confs)] on line 113 reads the
    list as the two installs left it. *)
Definition initialize (gST : Z) : M unit :=
  let L := layout gST in
  modify (set_mem (bs_initialize (gBS L))) ;;
  modify (set_mem (rt_initialize (gRT L))) ;;
  modify (set_mem (ds_initialize (gDS L))) ;;
  modify (set_efi_conf_table_array (λ _, [])) ;;
  modify (set_efi_conf_table_array_ptr (cfg L)) ;;
  modify (set_efi_conf_table_data_ptr (conf_data L)) ;;
  modify (set_efi_conf_table_data_next_ptr (λ _, conf_data L)) ;;
  install_configuration_table "HOB_LIST" None ;;
  install_configuration_table "DXE_SERVICE_TABLE" (Some (gDS L)) ;;
  let* confs := gets efi_conf_table_array in
  let instance :=
    {| RuntimeServices := gRT L;
       BootServices := gBS L;
       NumberOfTableEntries := Z.of_nat (length confs);
       ConfigurationTable := cfg L |} in
  EFI_SYSTEM_TABLE_saveTo instance gST.

(** Address of slot [i] of the on-memory configuration table array. *)
Definition slot (ql : Qiling) (i : nat) : Z :=
  efi_conf_table_array_ptr ql + Z.of_nat i * EFI_CONFIGURATION_TABLE_sizeof.

(** The bytes of slot [i], read back from guest memory. *)
Definition read_slot (ql : Qiling) (i : nat) : option (list byte) :=
  mem_read (mem ql) (slot ql i) (Z.to_nat EFI_CONFIGURATION_TABLE_sizeof).

End st.

(** ** An example platform and session

    A little-endian 64-bit layout with the table sizes used as the worked
    example of the layout planner, zero-filling service initializers, and a
    profile with the two sections that [initialize] installs. *)

Definition le_bytes (n : nat) (v : Z) : list byte :=
  map (λ i, Z.land (Z.shiftr v (8 * Z.of_nat i)) 255) (seq 0 n).

(** Exactly [n] bytes: truncated, or padded with zeros. *)
Definition fit (n : nat) (l : list byte) : list byte :=
  take n (l ++ replicate n 0)%list.

Fixpoint drop_dashes (s : string) : string :=
  match s with
  | EmptyString => EmptyString
  | String c s' =>
      if bool_decide (code c = 45) then drop_dashes s' else String c (drop_dashes s')
  end.

(** The 16 bytes of a textual GUID, first three fields little-endian. *)
Definition guid_bytes (guid : string) : list byte :=
  match a2b_hex (drop_dashes guid) with
  | Some [b0; b1; b2; b3; b4; b5; b6; b7; b8; b9; b10; b11; b12; b13; b14; b15] =>
      [b3; b2; b1; b0; b5; b4; b7; b6; b8; b9; b10; b11; b12; b13; b14; b15]
  | _ => replicate 16 0
  end.

Definition example_spec : UefiSpec := {|
  EFI_SYSTEM_TABLE_sizeof := 0x80;
  EFI_BOOT_SERVICES_sizeof := 0x140;
  EFI_RUNTIME_SERVICES_sizeof := 0x78;
  EFI_DXE_SERVICES_sizeof := 0x58;
  EFI_CONFIGURATION_TABLE_sizeof := 0x18;
  EFI_SYSTEM_TABLE_bytes t :=
    fit 0x80 (replicate 88 0 ++ le_bytes 8 (RuntimeServices t)
              ++ le_bytes 8 (BootServices t)
              ++ le_bytes 8 (NumberOfTableEntries t)
              ++ le_bytes 8 (ConfigurationTable t))%list;
  EFI_CONFIGURATION_TABLE_bytes e :=
    fit 0x18 (fit 16 (guid_bytes (VendorGuid e)) ++ le_bytes 8 (VendorTable e))%list;
  bs_initialize a m := mem_write m a (replicate 0x140 0);
  rt_initialize a m := mem_write m a (replicate 0x78 0);
  ds_initialize a m := mem_write m a (replicate 0x58 0)
|}.

Definition example_hob : gmap string string :=
  <["Guid" := "7739f24c-93d7-11d4-9a3a-0090273fc14d"]> (<["TableData" := "aabb"]> ∅).

Definition example_dxe : gmap string string :=
  <["Guid" := "05ad34ba-6f02-4214-952e-4da0398e2bb9"]> ∅.

Definition example_broken : gmap string string :=
  <["Guid" := "00000000-0000-0000-0000-000000000000"]> (<["TableData" := "aabbc"]> ∅).

Definition example_profile : gmap string (gmap string string) :=
  <["HOB_LIST" := example_hob]>
  (<["DXE_SERVICE_TABLE" := example_dxe]>
  (<["BROKEN" := example_broken]> ∅)).

Definition example_ql : Qiling := {|
  profile := example_profile;
  mem := ∅;
  efi_conf_table_array := [];
  efi_conf_table_array_ptr := 0;
  efi_conf_table_data_ptr := 0;
  efi_conf_table_data_next_ptr := 0
|}.

(** The session after [initialize] at the example base address. *)
Definition example_booted : Qiling :=
  snd (initialize (U := example_spec) 0x10000000 example_ql).

(** ** Notions used to state the properties *)

(** The session when [initialize] reaches line 107: service tables
    populated, empty registry, both data pointers at [conf_data]. *)
Definition prepared {U : UefiSpec} (gST : Z) (ql : Qiling) : Qiling :=
  let L := layout gST in
  {| profile := profile ql;
     mem := ds_initialize (gDS L) (rt_initialize (gRT L) (bs_initialize (gBS L) (mem ql)));
     efi_conf_table_array := [];
     efi_conf_table_array_ptr := cfg L;
     efi_conf_table_data_ptr := conf_data L;
     efi_conf_table_data_next_ptr := conf_data L |}.

(** The root record that line 110-114 build for a session. *)
Definition system_table {U : UefiSpec} (gST : Z) (ql : Qiling) : EFI_SYSTEM_TABLE :=
  {| RuntimeServices := gRT (layout gST);
     BootServices := gBS (layout gST);
     NumberOfTableEntries := Z.of_nat (length (efi_conf_table_array ql));
     ConfigurationTable := cfg (layout gST) |}.

(** The on-memory array mirrors the registry list: slot [i] holds the bytes
    of entry [i]. *)
Definition mirrored {U : UefiSpec} (ql : Qiling) : Prop :=
  ∀ (i : nat) (entry : EFI_CONFIGURATION_TABLE),
    efi_conf_table_array ql !! i = Some entry →
    read_slot ql i = Some (EFI_CONFIGURATION_TABLE_bytes entry).

(** Two sessions that differ in their profile at most. *)
Definition same_machine (ql1 ql2 : Qiling) : Prop :=
  mem ql1 = mem ql2 ∧
  efi_conf_table_array ql1 = efi_conf_table_array ql2 ∧
  efi_conf_table_array_ptr ql1 = efi_conf_table_array_ptr ql2 ∧
  efi_conf_table_data_ptr ql1 = efi_conf_table_data_ptr ql2 ∧
  efi_conf_table_data_next_ptr ql1 = efi_conf_table_data_next_ptr ql2.

(** The session between the two installs of [initialize]: one entry. *)
Definition example_one : Qiling :=
  snd (install_configuration_table (U := example_spec) "HOB_LIST" None
         (prepared (U := example_spec) 0x10000000 example_ql)).


(** The layout that [initialize] sets up for the installer: the data region
    starts no earlier than the end of the 100 array slots, and the cursor
    lies in the data region. *)
Definition laid_out {U : UefiSpec} (ql : Qiling) : Prop :=
  efi_conf_table_array_ptr ql + EFI_CONFIGURATION_TABLE_sizeof * 100
    ≤ efi_conf_table_data_ptr ql ∧
  efi_conf_table_data_ptr ql ≤ efi_conf_table_data_next_ptr ql.

(** Further example sessions: the booted session with three more profile
    sections, and two sessions whose profile lacks a default section. *)
Definition example_smbios : gmap string string :=
  <["Guid" := "eb9d2d31-2d88-11d3-9a16-0090273fc14d"]> (<["TableData" := "5F534D5f"]> ∅).

Definition example_empty : gmap string string :=
  <["Guid" := "8868e871-e4f1-11d3-bc22-0080c73c8881"]> (<["TableData" := ""]> ∅).

Definition example_no_guid : gmap string string :=
  <["TableData" := "zz"]> ∅.

Definition example_extended : Qiling := {|
  profile :=
    <["SMBIOS_TABLE" := example_smbios]>
    (<["ACPI_TABLE" := example_empty]>
    (<["NO_GUID" := example_no_guid]> example_profile));
  mem := mem example_booted;
  efi_conf_table_array := efi_conf_table_array example_booted;
  efi_conf_table_array_ptr := efi_conf_table_array_ptr example_booted;
  efi_conf_table_data_ptr := efi_conf_table_data_ptr example_booted;
  efi_conf_table_data_next_ptr := efi_conf_table_data_next_ptr example_booted
|}.

Definition example_blank : Qiling := {|
  profile := ∅;
  mem := ∅;
  efi_conf_table_array := [];
  efi_conf_table_array_ptr := 0;
  efi_conf_table_data_ptr := 0;
  efi_conf_table_data_next_ptr := 0
|}.

Definition example_hob_only : Qiling := {|
  profile := <["HOB_LIST" := example_hob]> ∅;
  mem := ∅;
  efi_conf_table_array := [];
  efi_conf_table_array_ptr := 0;
  efi_conf_table_data_ptr := 0;
  efi_conf_table_data_next_ptr := 0
|}.

(** * Properties *)

(** ** Guest memory *)

Lemma lookup_mem_write (m : memory) (a : Z) (data : list byte) (x : Z) :
  mem_write m a data !! x =
    if decide (a ≤ x < a + Z.of_nat (length data))
    then data !! Z.to_nat (x - a)
    else m !! x.
Proof.
  revert m a. induction data as [|b data IH]; intros m a; simpl.
  - case_decide; [lia | done].
  - rewrite IH. destruct (decide (x = a)) as [->|Hne].
    + rewrite decide_False by lia. rewrite decide_True by lia.
      rewrite lookup_insert_eq. by replace (a - a) with 0 by lia.
    + rewrite lookup_insert_ne by done.
      repeat case_decide; try lia; try done.
      replace (Z.to_nat (x - a)) with (S (Z.to_nat (x - (a + 1)))) by lia.
      done.
Qed.

Lemma lookup_mem_write_outside (m : memory) (a : Z) (data : list byte) (x : Z) :
  ¬ (a ≤ x < a + Z.of_nat (length data)) →
  mem_write m a data !! x = m !! x.
Proof. intros H. rewrite lookup_mem_write. by rewrite decide_False. Qed.

Lemma mem_read_ext (m1 m2 : memory) (a : Z) (n : nat) :
  (∀ x, a ≤ x < a + Z.of_nat n → m1 !! x = m2 !! x) →
  mem_read m1 a n = mem_read m2 a n.
Proof.
  revert a. induction n as [|n IH]; intros a H; simpl; [done|].
  rewrite (H a) by lia. rewrite (IH (a + 1)); [done|].
  intros x Hx. apply H. lia.
Qed.

Lemma mem_read_holds (m : memory) (a : Z) (data : list byte) :
  (∀ i b, data !! i = Some b → m !! (a + Z.of_nat i) = Some b) →
  mem_read m a (length data) = Some data.
Proof.
  revert a. induction data as [|b data IH]; intros a H; simpl; [done|].
  specialize (H 0%nat b eq_refl) as H0. replace (a + Z.of_nat 0) with a in H0 by lia.
  rewrite H0, (IH (a + 1)); [done|].
  intros i c Hc. replace (a + 1 + Z.of_nat i) with (a + Z.of_nat (S i)) by lia.
  by apply H.
Qed.

Lemma mem_read_write (m : memory) (a : Z) (data : list byte) :
  mem_read (mem_write m a data) a (length data) = Some data.
Proof.
  apply mem_read_holds. intros i b Hb. rewrite lookup_mem_write.
  apply lookup_lt_Some in Hb as Hlt. rewrite decide_True by lia.
  by replace (Z.to_nat (a + Z.of_nat i - a)) with i by lia.
Qed.

Lemma mem_read_write_disjoint (m : memory) (a : Z) (data : list byte) (a' : Z) (n : nat) :
  a' + Z.of_nat n ≤ a ∨ a + Z.of_nat (length data) ≤ a' →
  mem_read (mem_write m a data) a' n = mem_read m a' n.
Proof.
  intros H. apply mem_read_ext. intros x Hx.
  apply lookup_mem_write_outside. lia.
Qed.

Lemma mem_read_length (m : memory) (a : Z) (n : nat) (l : list byte) :
  mem_read m a n = Some l → length l = n.
Proof.
  revert a l. induction n as [|n IH]; intros a l; simpl.
  - by intros [= <-].
  - destruct (m !! a); [|done]. destruct (mem_read m (a + 1) n) eqn:E; [|done].
    intros [= <-]. simpl. f_equal. eauto.
Qed.

(** ** Hexadecimal decoding *)

Lemma is_hex_digit_digit_value (c : ascii) :
  is_hex_digit c = match digit_value c with Some _ => true | None => false end.
Proof. by destruct c as [[] [] [] [] [] [] [] []]. Qed.

Lemma is_hex_digit_code (c : ascii) : is_hex_digit c = true → code c < 128.
Proof. by destruct c as [[] [] [] [] [] [] [] []]. Qed.

Lemma all_hex_digits_is_ascii (s : string) :
  all_hex_digits s = true → is_ascii s = true.
Proof.
  induction s as [|c s IH]; simpl; [done|].
  intros [Hc Hs]%andb_prop. rewrite IH by done. rewrite andb_true_r.
  apply Z.ltb_lt. by apply is_hex_digit_code.
Qed.

Lemma string_pair_ind (P : string → Prop) :
  P EmptyString →
  (∀ c, P (String c EmptyString)) →
  (∀ c1 c2 s, P s → P (String c1 (String c2 s))) →
  ∀ s, P s.
Proof.
  intros H0 H1 H2 s.
  assert (P s ∧ ∀ c, P (String c s)) as [? _]; [|done].
  induction s as [|c s [IHs IHcs]]; split; auto.
Qed.

Lemma a2b_hex_Some (s : string) (d : list byte) :
  a2b_hex s = Some d →
  well_formed_hex s = true ∧ String.length s = (2 * length d)%nat.
Proof.
  revert d. induction s as [|c|c1 c2 s IH] using string_pair_ind; intros d; simpl.
  - by intros [= <-].
  - done.
  - destruct (digit_value c1) eqn:E1; [|done].
    destruct (digit_value c2) eqn:E2; [|done].
    destruct (a2b_hex s) as [d'|] eqn:E; [|done].
    intros [= <-]. destruct (IH d') as [Hwf Hlen]; [done|].
    unfold well_formed_hex in *. simpl.
    apply andb_prop in Hwf as [Hev Hall].
    rewrite !is_hex_digit_digit_value, E1, E2, Hall. simpl. split; [|lia].
    by rewrite Hev.
Qed.

Lemma a2b_hex_well_formed (s : string) :
  well_formed_hex s = true → ∃ d, a2b_hex s = Some d.
Proof.
  unfold well_formed_hex.
  induction s as [|c|c1 c2 s IH] using string_pair_ind; simpl.
  - eauto.
  - done.
  - rewrite !is_hex_digit_digit_value.
    destruct (digit_value c1); [|by rewrite andb_false_r].
    destruct (digit_value c2); [|by rewrite andb_false_r].
    intros [Hev Hall]%andb_prop. simpl in Hall.
    destruct IH as [d ->]; [|eauto].
    by rewrite Hev, Hall.
Qed.

(** A well-formed payload decodes, to half as many bytes as it has digits. *)
Lemma unhexlify_well_formed (s : string) :
  well_formed_hex s = true →
  ∃ d, unhexlify s = Return d ∧ String.length s = (2 * length d)%nat.
Proof.
  intros Hwf. destruct (a2b_hex_well_formed s Hwf) as [d Hd].
  exists d. split; [|by eapply a2b_hex_Some].
  unfold unhexlify, well_formed_hex in *.
  apply andb_prop in Hwf as [Hev Hall].
  rewrite all_hex_digits_is_ascii by done. simpl.
  rewrite <- Nat.negb_even, Hev. simpl. by rewrite Hd.
Qed.

(** Anything else is refused with an exception of the ValueError family. *)
Lemma unhexlify_malformed (s : string) :
  well_formed_hex s = false →
  ∃ e, unhexlify s = Raise e ∧ PayloadDecodeError e = true.
Proof.
  intros Hwf. unfold unhexlify.
  destruct (is_ascii s); simpl; [|eauto].
  destruct (Nat.odd _); [eauto|].
  destruct (a2b_hex s) as [d|] eqn:E; [|eauto].
  apply a2b_hex_Some in E as [E _]. congruence.
Qed.

(** ** The installer, case by case *)

Ltac run :=
  unfold install_configuration_table, CoreInstallConfigurationTable,
    EFI_CONFIGURATION_TABLE_saveTo, EFI_SYSTEM_TABLE_saveTo,
    bind, gets, modify, getitem, lift, ret, raise; simpl.

Section installer.
Context {U : UefiSpec}.
Implicit Types (ql : Qiling) (key guid : string) (table : Z).

Lemma CoreInstallConfigurationTable_eq guid table ql :
  CoreInstallConfigurationTable guid table ql =
    (Return tt,
     {| profile := profile ql;
        mem := mem_write (mem ql) (slot ql (length (efi_conf_table_array ql)))
                 (EFI_CONFIGURATION_TABLE_bytes
                    {| VendorGuid := guid; VendorTable := table |});
        efi_conf_table_array :=
          (efi_conf_table_array ql
             ++ [{| VendorGuid := guid; VendorTable := table |}])%list;
        efi_conf_table_array_ptr := efi_conf_table_array_ptr ql;
        efi_conf_table_data_ptr := efi_conf_table_data_ptr ql;
        efi_conf_table_data_next_ptr := efi_conf_table_data_next_ptr ql |}).
Proof. reflexivity. Qed.

Lemma install_missing_section key (t : option Z) ql :
  profile ql !! key = None →
  install_configuration_table key t ql = (Raise (KeyError key), ql).
Proof. intros H. run. by rewrite H. Qed.

Lemma install_missing_guid key (t : option Z) ql (cfgtable : gmap string string) :
  profile ql !! key = Some cfgtable →
  cfgtable !! "Guid" = None →
  install_configuration_table key t ql = (Raise (KeyError "Guid"), ql).
Proof. intros H1 H2. run. rewrite H1. simpl. by rewrite H2. Qed.

Lemma install_explicit key table ql (cfgtable : gmap string string) guid :
  profile ql !! key = Some cfgtable →
  cfgtable !! "Guid" = Some guid →
  install_configuration_table key (Some table) ql =
    CoreInstallConfigurationTable guid table ql.
Proof. intros H1 H2. run. rewrite H1. simpl. by rewrite H2. Qed.

Lemma install_missing_data key ql (cfgtable : gmap string string) guid :
  profile ql !! key = Some cfgtable →
  cfgtable !! "Guid" = Some guid →
  cfgtable !! "TableData" = None →
  install_configuration_table key None ql = (Raise (KeyError "TableData"), ql).
Proof. intros H1 H2 H3. run. rewrite H1. simpl. rewrite H2. simpl. by rewrite H3. Qed.

Lemma install_bad_data key ql (cfgtable : gmap string string) guid hexstr e :
  profile ql !! key = Some cfgtable →
  cfgtable !! "Guid" = Some guid →
  cfgtable !! "TableData" = Some hexstr →
  unhexlify hexstr = Raise e →
  install_configuration_table key None ql = (Raise e, ql).
Proof.
  intros H1 H2 H3 H4. run. rewrite H1. simpl. rewrite H2. simpl.
  rewrite H3. simpl. by rewrite H4.
Qed.

Lemma install_payload key ql (cfgtable : gmap string string) guid hexstr data :
  profile ql !! key = Some cfgtable →
  cfgtable !! "Guid" = Some guid →
  cfgtable !! "TableData" = Some hexstr →
  unhexlify hexstr = Return data →
  install_configuration_table key None ql =
    CoreInstallConfigurationTable guid (efi_conf_table_data_next_ptr ql)
      (set_efi_conf_table_data_next_ptr (λ p, p + Z.of_nat (length data))
         (set_mem (λ m, mem_write m (efi_conf_table_data_next_ptr ql) data) ql)).
Proof.
  intros H1 H2 H3 H4. run. rewrite H1. simpl. rewrite H2. simpl.
  rewrite H3. simpl. by rewrite H4.
Qed.

(** A call that returns went through one of the two successful paths. *)
Lemma install_Return key (t : option Z) ql ql' :
  install_configuration_table key t ql = (Return tt, ql') →
  ∃ (cfgtable : gmap string string) guid,
    profile ql !! key = Some cfgtable ∧ cfgtable !! "Guid" = Some guid ∧
    match t with
    | Some table => ql' = snd (CoreInstallConfigurationTable guid table ql)
    | None =>
        ∃ hexstr data,
          cfgtable !! "TableData" = Some hexstr ∧ unhexlify hexstr = Return data ∧
          ql' = snd (CoreInstallConfigurationTable guid (efi_conf_table_data_next_ptr ql)
                  (set_efi_conf_table_data_next_ptr (λ p, p + Z.of_nat (length data))
                     (set_mem (λ m, mem_write m (efi_conf_table_data_next_ptr ql) data) ql)))
    end.
Proof.
  intros H.
  destruct (profile ql !! key) as [cfgtable|] eqn:H1;
    [|by rewrite install_missing_section in H].
  destruct (cfgtable !! "Guid") as [guid|] eqn:H2;
    [|by erewrite install_missing_guid in H].
  exists cfgtable, guid. split_and!; [done..|].
  destruct t as [table|].
  - erewrite install_explicit in H by done.
    rewrite CoreInstallConfigurationTable_eq in *. by injection H as <-.
  - destruct (cfgtable !! "TableData") as [hexstr|] eqn:H3;
      [|by erewrite install_missing_data in H].
    destruct (unhexlify hexstr) as [data|e] eqn:H4;
      [|by erewrite install_bad_data in H].
    exists hexstr, data. split_and!; [done..|].
    erewrite install_payload in H by done.
    rewrite CoreInstallConfigurationTable_eq in *. by injection H as <-.
Qed.

(** A call that raises leaves [ql] as it found it. *)
Lemma install_Raise key (t : option Z) ql ql' e :
  install_configuration_table key t ql = (Raise e, ql') →
  ql' = ql ∧ ConfigurationNotFound e || PayloadDecodeError e = true.
Proof.
  intros H.
  destruct (profile ql !! key) as [cfgtable|] eqn:H1;
    [|rewrite install_missing_section in H by done; by injection H as <- <-].
  destruct (cfgtable !! "Guid") as [guid|] eqn:H2;
    [|erewrite install_missing_guid in H by done; by injection H as <- <-].
  destruct t as [table|].
  - erewrite install_explicit in H by done.
    by rewrite CoreInstallConfigurationTable_eq in H.
  - destruct (cfgtable !! "TableData") as [hexstr|] eqn:H3;
      [|erewrite install_missing_data in H by done; by injection H as <- <-].
    destruct (unhexlify hexstr) as [data|e'] eqn:H4.
    + erewrite install_payload in H by done.
      by rewrite CoreInstallConfigurationTable_eq in H.
    + erewrite install_bad_data in H by done. injection H as <- <-.
      split; [done|]. unfold unhexlify in H4.
      repeat case_match; by simplify_eq.
Qed.

(** A call that raises stopped at the first fault, in source order. *)
Lemma install_fault key (t : option Z) ql e :
  fst (install_configuration_table key t ql) = Raise e →
  snd (install_configuration_table key t ql) = ql ∧
  (profile ql !! key = None ∧ e = KeyError key ∨
   ∃ cfgtable : gmap string string,
     profile ql !! key = Some cfgtable ∧
     (cfgtable !! "Guid" = None ∧ e = KeyError "Guid" ∨
      is_Some (cfgtable !! "Guid") ∧ t = None ∧
      (cfgtable !! "TableData" = None ∧ e = KeyError "TableData" ∨
       ∃ hexstr, cfgtable !! "TableData" = Some hexstr ∧
                 well_formed_hex hexstr = false ∧ unhexlify hexstr = Raise e))).
Proof.
  destruct (profile ql !! key) as [cfgtable|] eqn:H1.
  2:{ rewrite install_missing_section by done. simpl. intros [= <-]. eauto. }
  destruct (cfgtable !! "Guid") as [guid|] eqn:H2.
  2:{ erewrite install_missing_guid by done. simpl. intros [= <-].
      split; [done|]. right. exists cfgtable. eauto. }
  destruct t as [table|].
  { erewrite install_explicit by done.
    by rewrite CoreInstallConfigurationTable_eq. }
  destruct (cfgtable !! "TableData") as [hexstr|] eqn:H3.
  2:{ erewrite install_missing_data by done. simpl. intros [= <-].
      split; [done|]. right. exists cfgtable. split; [done|]. right.
      rewrite H2. eauto 10. }
  destruct (unhexlify hexstr) as [data|e'] eqn:H4.
  { erewrite install_payload by done.
    by rewrite CoreInstallConfigurationTable_eq. }
  erewrite install_bad_data by done. simpl. intros [= <-].
  split; [done|]. right. exists cfgtable. split; [done|]. right.
  rewrite H2. split_and!; [eauto|done|]. right. exists hexstr. split_and!; [done| |done].
  destruct (well_formed_hex hexstr) eqn:Hwf; [|done].
  destruct (unhexlify_well_formed hexstr Hwf) as (d & Hd & _). congruence.
Qed.

End installer.

(** ** The registry invariant *)

Section registry.
Context {U : UefiSpec} {HU : UefiSpecLayout U}.
Implicit Types (ql : Qiling) (key guid : string) (table : Z).

Lemma entry_size (entry : EFI_CONFIGURATION_TABLE) :
  Z.to_nat EFI_CONFIGURATION_TABLE_sizeof = length (EFI_CONFIGURATION_TABLE_bytes entry).
Proof. rewrite <- (EFI_CONFIGURATION_TABLE_bytes_length entry). lia. Qed.

Lemma EFI_CONFIGURATION_TABLE_sizeof_nonneg : 0 ≤ EFI_CONFIGURATION_TABLE_sizeof.
Proof.
  rewrite <- (EFI_CONFIGURATION_TABLE_bytes_length {| VendorGuid := ""; VendorTable := 0 |}).
  lia.
Qed.

Lemma EFI_SYSTEM_TABLE_sizeof_nonneg : 0 ≤ EFI_SYSTEM_TABLE_sizeof.
Proof.
  rewrite <- (EFI_SYSTEM_TABLE_bytes_length
    {| RuntimeServices := 0; BootServices := 0; NumberOfTableEntries := 0;
       ConfigurationTable := 0 |}).
  lia.
Qed.

(** The new entry can be read back from the slot it was written to. *)
Lemma CoreInstallConfigurationTable_slot guid table ql :
  read_slot (snd (CoreInstallConfigurationTable guid table ql))
      (length (efi_conf_table_array ql)) =
    Some (EFI_CONFIGURATION_TABLE_bytes {| VendorGuid := guid; VendorTable := table |}).
Proof.
  rewrite CoreInstallConfigurationTable_eq. unfold read_slot, slot. simpl.
  rewrite (entry_size {| VendorGuid := guid; VendorTable := table |}).
  apply mem_read_write.
Qed.

(** Appending never disturbs the slots of the earlier entries. *)
Lemma CoreInstallConfigurationTable_mirrored guid table ql :
  mirrored ql → mirrored (snd (CoreInstallConfigurationTable guid table ql)).
Proof.
  intros Hql i entry Hi.
  destruct (decide (i = length (efi_conf_table_array ql))) as [->|Hne].
  - rewrite CoreInstallConfigurationTable_slot.
    rewrite CoreInstallConfigurationTable_eq in Hi. simpl in Hi.
    rewrite list_lookup_middle in Hi by done. by injection Hi as <-.
  - rewrite CoreInstallConfigurationTable_eq in *. simpl in Hi.
    apply lookup_lt_Some in Hi as Hlt. rewrite length_app in Hlt. simpl in Hlt.
    rewrite lookup_app_l in Hi by lia.
    rewrite <- (Hql i entry Hi). unfold read_slot, slot. simpl.
    apply mem_read_write_disjoint. left.
    pose proof EFI_CONFIGURATION_TABLE_sizeof_nonneg. nia.
Qed.

(** Neither does a write that stays clear of the slots in use. *)
Lemma mem_write_mirrored ql (a : Z) (data : list byte) :
  a + Z.of_nat (length data) ≤ efi_conf_table_array_ptr ql ∨
  slot ql (length (efi_conf_table_array ql)) ≤ a →
  mirrored ql → mirrored (set_mem (λ m, mem_write m a data) ql).
Proof.
  intros Hout Hql i entry Hi. simpl in Hi.
  rewrite <- (Hql i entry Hi). unfold read_slot, slot in *. simpl.
  apply mem_read_write_disjoint.
  apply lookup_lt_Some in Hi as Hlt.
  pose proof EFI_CONFIGURATION_TABLE_sizeof_nonneg. nia.
Qed.

End registry.

(** ** Bootstrap, step by step *)

Section bootstrap.
Context {U : UefiSpec}.
Implicit Types (ql : Qiling) (gST : Z).

Lemma initialize_eq gST ql :
  initialize gST ql =
    match install_configuration_table "HOB_LIST" None (prepared gST ql) with
    | (Return _, ql1) =>
        match install_configuration_table "DXE_SERVICE_TABLE"
                (Some (gDS (layout gST))) ql1 with
        | (Return _, ql2) =>
            (Return tt,
             set_mem (λ m, mem_write m gST
                             (EFI_SYSTEM_TABLE_bytes (system_table gST ql2))) ql2)
        | (Raise e, ql2) => (Raise e, ql2)
        end
    | (Raise e, ql1) => (Raise e, ql1)
    end.
Proof. reflexivity. Qed.

Lemma initialize_Return gST ql ql' :
  initialize gST ql = (Return tt, ql') →
  ∃ ql1 ql2,
    install_configuration_table "HOB_LIST" None (prepared gST ql) = (Return tt, ql1) ∧
    install_configuration_table "DXE_SERVICE_TABLE" (Some (gDS (layout gST))) ql1
      = (Return tt, ql2) ∧
    ql' = set_mem (λ m, mem_write m gST (EFI_SYSTEM_TABLE_bytes (system_table gST ql2))) ql2.
Proof.
  rewrite initialize_eq. intros H.
  destruct (install_configuration_table "HOB_LIST" None (prepared gST ql))
    as [[[]|e] ql1] eqn:H1; [|done].
  destruct (install_configuration_table "DXE_SERVICE_TABLE" _ ql1)
    as [[[]|e] ql2] eqn:H2; [|done].
  exists ql1, ql2. split_and!; [done..|]. by simplify_eq.
Qed.

Lemma initialize_run gST ql ql1 ql2 :
  install_configuration_table "HOB_LIST" None (prepared gST ql) = (Return tt, ql1) →
  install_configuration_table "DXE_SERVICE_TABLE" (Some (gDS (layout gST))) ql1
    = (Return tt, ql2) →
  initialize gST ql =
    (Return tt,
     set_mem (λ m, mem_write m gST (EFI_SYSTEM_TABLE_bytes (system_table gST ql2))) ql2).
Proof. intros H1 H2. by rewrite initialize_eq, H1, H2. Qed.

(** Whatever the outcome of an install, the array and the data region
    stay where they are. *)
Lemma install_pointers key (t : option Z) ql :
  let ql' := snd (install_configuration_table key t ql) in
  efi_conf_table_array_ptr ql' = efi_conf_table_array_ptr ql ∧
  efi_conf_table_data_ptr ql' = efi_conf_table_data_ptr ql ∧
  profile ql' = profile ql.
Proof.
  destruct (install_configuration_table key t ql) as [[[]|e] ql'] eqn:H; simpl.
  - apply install_Return in H as (cfgtable & guid & _ & _ & H).
    destruct t as [table|]; [by subst|].
    by destruct H as (hexstr & data & _ & _ & ->).
  - by apply install_Raise in H as [-> _].
Qed.

End bootstrap.

(** ** The bootstrap sequence as a whole *)

Section bootstrap_shape.
Context {U : UefiSpec}.
Implicit Types (ql : Qiling) (gST : Z).

(** The final session of a run that returned, written out. *)
Lemma initialize_shape gST ql ql' :
  initialize gST ql = (Return tt, ql') →
  ∃ (hob dxe : gmap string string) g1 hexstr data g2,
    profile ql !! "HOB_LIST" = Some hob ∧ hob !! "Guid" = Some g1 ∧
    hob !! "TableData" = Some hexstr ∧ unhexlify hexstr = Return data ∧
    profile ql !! "DXE_SERVICE_TABLE" = Some dxe ∧ dxe !! "Guid" = Some g2 ∧
    let L := layout gST in
    let e0 := {| VendorGuid := g1; VendorTable := conf_data L |} in
    let e1 := {| VendorGuid := g2; VendorTable := gDS L |} in
    ql' =
      {| profile := profile ql;
         mem :=
           mem_write
             (mem_write
                (mem_write
                   (mem_write (mem (prepared gST ql)) (conf_data L) data)
                   (cfg L + 0 * EFI_CONFIGURATION_TABLE_sizeof)
                   (EFI_CONFIGURATION_TABLE_bytes e0))
                (cfg L + 1 * EFI_CONFIGURATION_TABLE_sizeof)
                (EFI_CONFIGURATION_TABLE_bytes e1))
             gST
             (EFI_SYSTEM_TABLE_bytes
                {| RuntimeServices := gRT L; BootServices := gBS L;
                   NumberOfTableEntries := 2; ConfigurationTable := cfg L |});
         efi_conf_table_array := [e0; e1];
         efi_conf_table_array_ptr := cfg L;
         efi_conf_table_data_ptr := conf_data L;
         efi_conf_table_data_next_ptr := conf_data L + Z.of_nat (length data) |}.
Proof.
  intros (ql1 & ql2 & H1 & H2 & ->)%initialize_Return.
  apply install_Return in H1 as (hob & g1 & Hhob & Hg1 & hexstr & data & Hhex & Hdata & ->).
  apply install_Return in H2 as (dxe & g2 & Hdxe & Hg2 & ->).
  exists hob, dxe, g1, hexstr, data, g2. split_and!; try done.
Qed.

(** With both sections in the profile and a payload that decodes, the run
    returns. *)
Lemma initialize_succeeds gST ql (hob dxe : gmap string string) g1 hexstr g2 :
  profile ql !! "HOB_LIST" = Some hob → hob !! "Guid" = Some g1 →
  hob !! "TableData" = Some hexstr → well_formed_hex hexstr = true →
  profile ql !! "DXE_SERVICE_TABLE" = Some dxe → dxe !! "Guid" = Some g2 →
  fst (initialize gST ql) = Return tt.
Proof.
  intros Hhob Hg1 Hhex Hwf Hdxe Hg2.
  destruct (unhexlify_well_formed hexstr Hwf) as (data & Hdata & _).
  rewrite initialize_eq.
  erewrite (install_payload "HOB_LIST" (prepared gST ql)) by done.
  rewrite CoreInstallConfigurationTable_eq.
  erewrite (install_explicit "DXE_SERVICE_TABLE") by done.
  by rewrite CoreInstallConfigurationTable_eq.
Qed.

End bootstrap_shape.

(** * The specification's claims *)

Section claims.
Context {U : UefiSpec}.
Implicit Types (ql : Qiling) (gST : Z) (key guid : string).

Lemma mirrored_nil ql : efi_conf_table_array ql = [] → mirrored ql.
Proof. intros H i entry. by rewrite H. Qed.

Lemma system_table_size {HU : UefiSpecLayout U} (t : EFI_SYSTEM_TABLE) :
  Z.to_nat EFI_SYSTEM_TABLE_sizeof = length (EFI_SYSTEM_TABLE_bytes t).
Proof. rewrite <- (EFI_SYSTEM_TABLE_bytes_length t). lia. Qed.

Lemma layout_order {HU : UefiSpecLayout U} gST :
  gST + EFI_SYSTEM_TABLE_sizeof ≤ cfg (layout gST) ∧
  cfg (layout gST) + 2 * EFI_CONFIGURATION_TABLE_sizeof ≤ conf_data (layout gST).
Proof.
  pose proof EFI_BOOT_SERVICES_sizeof_nonneg.
  pose proof EFI_RUNTIME_SERVICES_sizeof_nonneg.
  pose proof EFI_DXE_SERVICES_sizeof_nonneg.
  pose proof EFI_CONFIGURATION_TABLE_sizeof_nonneg.
  simpl. lia.
Qed.

(** C1: every call of [install_configuration_table] that returns appends
    exactly one entry to the registry list and writes that entry into the
    array slot whose index is the list length before the call; hence after
    [initialize] every slot [i] of the on-memory array holds entry [i] of the
    list, and the entry count of the root record written at [gST] is the
    length of the list. *)
Theorem install_keeps_array_in_step {HU : UefiSpecLayout U} :
  (∀ key (t : option Z) ql ql',
     install_configuration_table key t ql = (Return tt, ql') →
     ∃ entry,
       efi_conf_table_array ql' = (efi_conf_table_array ql ++ [entry])%list ∧
       read_slot ql' (length (efi_conf_table_array ql))
         = Some (EFI_CONFIGURATION_TABLE_bytes entry)) ∧
  (∀ gST ql ql',
     initialize gST ql = (Return tt, ql') →
     mirrored ql' ∧
     mem_read (mem ql') gST (Z.to_nat EFI_SYSTEM_TABLE_sizeof)
       = Some (EFI_SYSTEM_TABLE_bytes (system_table gST ql')) ∧
     NumberOfTableEntries (system_table gST ql')
       = Z.of_nat (length (efi_conf_table_array ql'))).
Proof.
  split.
  - intros key t ql ql' (cfgtable & guid & _ & _ & H)%install_Return.
    destruct t as [table|].
    + subst ql'. exists {| VendorGuid := guid; VendorTable := table |}.
      split; [done|]. apply CoreInstallConfigurationTable_slot.
    + destruct H as (hexstr & data & _ & _ & ->).
      exists {| VendorGuid := guid; VendorTable := efi_conf_table_data_next_ptr ql |}.
      split; [done|].
      apply (CoreInstallConfigurationTable_slot guid (efi_conf_table_data_next_ptr ql)
               (set_efi_conf_table_data_next_ptr _ (set_mem _ ql))).
  - intros gST ql ql' (ql1 & ql2 & H1 & H2 & ->)%initialize_Return.
    apply install_Return in H1 as (hob & g1 & _ & _ & hexstr & data & _ & _ & ->).
    apply install_Return in H2 as (dxe & g2 & _ & _ & ->).
    split_and!; [| |done].
    + apply mem_write_mirrored.
      { left. rewrite <- system_table_size. rewrite Z2Nat.id
          by apply EFI_SYSTEM_TABLE_sizeof_nonneg. apply layout_order. }
      do 2 apply CoreInstallConfigurationTable_mirrored. by apply mirrored_nil.
    + simpl. erewrite system_table_size. apply mem_read_write.
Qed.

(** C2: a call with no explicit address ([table] is [None]) whose profile
    section holds a well-formed hex payload writes the decoded bytes at the
    cursor value [C] of before the call, installs [C] as the table pointer,
    and leaves the cursor at [C] plus the number of decoded bytes; the bytes
    read back from [C] whenever the array slot written next does not overlap
    them. *)
Theorem payload_copy_advances_cursor key ql (cfgtable : gmap string string) guid hexstr :
  profile ql !! key = Some cfgtable →
  cfgtable !! "Guid" = Some guid →
  cfgtable !! "TableData" = Some hexstr →
  well_formed_hex hexstr = true →
  ∃ data ql',
    unhexlify hexstr = Return data ∧
    String.length hexstr = (2 * length data)%nat ∧
    install_configuration_table key None ql = (Return tt, ql') ∧
    let C := efi_conf_table_data_next_ptr ql in
    let entry := {| VendorGuid := guid; VendorTable := C |} in
    let array_slot := slot ql (length (efi_conf_table_array ql)) in
    mem ql' = mem_write (mem_write (mem ql) C data) array_slot
                (EFI_CONFIGURATION_TABLE_bytes entry) ∧
    efi_conf_table_array ql' = (efi_conf_table_array ql ++ [entry])%list ∧
    efi_conf_table_data_next_ptr ql' = C + Z.of_nat (length data) ∧
    (C + Z.of_nat (length data) ≤ array_slot ∨
     array_slot + Z.of_nat (length (EFI_CONFIGURATION_TABLE_bytes entry)) ≤ C →
     mem_read (mem ql') C (length data) = Some data).
Proof.
  intros Hsec Hguid Hdata Hwf.
  destruct (unhexlify_well_formed hexstr Hwf) as (data & Hun & Hlen).
  exists data,
    (snd (CoreInstallConfigurationTable guid (efi_conf_table_data_next_ptr ql)
       (set_efi_conf_table_data_next_ptr (λ p, p + Z.of_nat (length data))
          (set_mem (λ m, mem_write m (efi_conf_table_data_next_ptr ql) data) ql)))).
  split; [done|]. split; [done|]. split.
  { erewrite install_payload by done. by rewrite CoreInstallConfigurationTable_eq. }
  intros C entry array_slot. split; [done|]. split; [done|]. split; [done|].
  intros Hdisj. simpl. fold C entry. change (_ + _ * _) with array_slot.
  rewrite mem_read_write_disjoint by lia. apply mem_read_write.
Qed.

(** C3: a call with an explicit address leaves the payload-region cursor
    where it was and changes no byte of guest memory outside the array slot
    of the new entry, whatever its outcome; when the section resolves, the
    call returns, the explicit address is the pointer of the appended entry,
    and the slot at the index of the old list length holds that entry. *)
Theorem explicit_address_keeps_cursor {HU : UefiSpecLayout U} key (table : Z) ql :
  let out := install_configuration_table key (Some table) ql in
  let n := length (efi_conf_table_array ql) in
  efi_conf_table_data_next_ptr (snd out) = efi_conf_table_data_next_ptr ql ∧
  (∀ x, ¬ (slot ql n ≤ x < slot ql n + EFI_CONFIGURATION_TABLE_sizeof) →
        mem (snd out) !! x = mem ql !! x) ∧
  (∀ (cfgtable : gmap string string) guid,
     profile ql !! key = Some cfgtable →
     cfgtable !! "Guid" = Some guid →
     let entry := {| VendorGuid := guid; VendorTable := table |} in
     fst out = Return tt ∧
     efi_conf_table_array (snd out) = (efi_conf_table_array ql ++ [entry])%list ∧
     mem (snd out) = mem_write (mem ql) (slot ql n) (EFI_CONFIGURATION_TABLE_bytes entry) ∧
     read_slot (snd out) n = Some (EFI_CONFIGURATION_TABLE_bytes entry)).
Proof.
  intros out n. subst out.
  destruct (install_configuration_table key (Some table) ql) as [[[]|e] ql'] eqn:H.
  - apply install_Return in H as (cfgtable & guid & Hsec & Hguid & ->).
    split_and!.
    + done.
    + intros x Hx. simpl. apply lookup_mem_write_outside.
      rewrite EFI_CONFIGURATION_TABLE_bytes_length. exact Hx.
    + intros cfgtable' guid' Hsec' Hguid'. simplify_eq.
      split_and!; [done..|]. apply CoreInstallConfigurationTable_slot.
  - destruct (install_Raise _ _ _ _ _ H) as [-> _]. split_and!; [done..|].
    intros cfgtable guid Hsec Hguid.
    pose proof (install_explicit key table ql cfgtable guid Hsec Hguid) as Heq.
    rewrite CoreInstallConfigurationTable_eq in Heq. congruence.
Qed.

(** C4: for every base address [gST] and positive table sizes, the planner
    places each region right after the preceding one, the data region 100
    entries after the start of the array, so that
    [gST < gBS < gRT < gDS < cfg < conf_data]; [initialize] records [cfg] and
    [conf_data] as the array and data pointers of the session. *)
Theorem layout_is_contiguous gST :
  0 < EFI_SYSTEM_TABLE_sizeof →
  0 < EFI_BOOT_SERVICES_sizeof →
  0 < EFI_RUNTIME_SERVICES_sizeof →
  0 < EFI_DXE_SERVICES_sizeof →
  0 < EFI_CONFIGURATION_TABLE_sizeof →
  let L := layout gST in
  (gBS L = gST + EFI_SYSTEM_TABLE_sizeof ∧
   gRT L = gBS L + EFI_BOOT_SERVICES_sizeof ∧
   gDS L = gRT L + EFI_RUNTIME_SERVICES_sizeof ∧
   cfg L = gDS L + EFI_DXE_SERVICES_sizeof ∧
   conf_data L = cfg L + EFI_CONFIGURATION_TABLE_sizeof * 100) ∧
  (gST < gBS L ∧ gBS L < gRT L ∧ gRT L < gDS L ∧ gDS L < cfg L ∧ cfg L < conf_data L) ∧
  (∀ ql,
     efi_conf_table_array_ptr (snd (initialize gST ql)) = cfg L ∧
     efi_conf_table_data_ptr (snd (initialize gST ql)) = conf_data L).
Proof.
  intros HST HBS HRT HDS HCT L. split_and!; try done; try (simpl; lia).
  intros ql. rewrite initialize_eq.
  pose proof (install_pointers "HOB_LIST" None (prepared gST ql)) as (Ha1 & Hd1 & _).
  destruct (install_configuration_table "HOB_LIST" None (prepared gST ql))
    as [[[]|e] ql1]; [|done..].
  pose proof (install_pointers "DXE_SERVICE_TABLE" (Some (gDS (layout gST))) ql1)
    as (Ha2 & Hd2 & _).
  destruct (install_configuration_table "DXE_SERVICE_TABLE" _ ql1) as [[[]|e] ql2];
    simpl in *; split; congruence.
Qed.

(** C5: a run of [initialize] that returns leaves at [gST] the bytes of the
    root record whose Runtime Services pointer is [gRT], Boot Services
    pointer is [gBS], entry count is the length of the registry list and
    configuration table pointer is [cfg]. *)
Theorem system_table_written_at_base {HU : UefiSpecLayout U} gST ql ql' :
  initialize gST ql = (Return tt, ql') →
  let L := layout gST in
  mem_read (mem ql') gST (Z.to_nat EFI_SYSTEM_TABLE_sizeof) =
    Some (EFI_SYSTEM_TABLE_bytes
            {| RuntimeServices := gRT L;
               BootServices := gBS L;
               NumberOfTableEntries := Z.of_nat (length (efi_conf_table_array ql'));
               ConfigurationTable := cfg L |}).
Proof.
  intros (ql1 & ql2 & _ & _ & ->)%initialize_Return L. simpl.
  erewrite system_table_size. apply mem_read_write.
Qed.

(** C6: a run of [initialize] that returns has installed exactly two
    entries, in this order: the HOB_LIST entry, whose pointer is the start of
    the data region, where the decoded profile payload now lies, and the
    DXE_SERVICE_TABLE entry, whose pointer is [gDS]; the root record is
    written after both installs, with entry count 2. *)
Theorem initialize_installs_two_defaults {HU : UefiSpecLayout U} gST ql ql' :
  initialize gST ql = (Return tt, ql') →
  ∃ (hob dxe : gmap string string) g1 hexstr data g2 ql1 ql2,
    profile ql !! "HOB_LIST" = Some hob ∧ hob !! "Guid" = Some g1 ∧
    hob !! "TableData" = Some hexstr ∧ unhexlify hexstr = Return data ∧
    profile ql !! "DXE_SERVICE_TABLE" = Some dxe ∧ dxe !! "Guid" = Some g2 ∧
    let L := layout gST in
    install_configuration_table "HOB_LIST" None (prepared gST ql) = (Return tt, ql1) ∧
    efi_conf_table_array ql1 = [{| VendorGuid := g1; VendorTable := conf_data L |}] ∧
    install_configuration_table "DXE_SERVICE_TABLE" (Some (gDS L)) ql1 = (Return tt, ql2) ∧
    efi_conf_table_array ql2 =
      [{| VendorGuid := g1; VendorTable := conf_data L |};
       {| VendorGuid := g2; VendorTable := gDS L |}] ∧
    ql' = set_mem (λ m, mem_write m gST
                          (EFI_SYSTEM_TABLE_bytes
                             {| RuntimeServices := gRT L; BootServices := gBS L;
                                NumberOfTableEntries := 2;
                                ConfigurationTable := cfg L |})) ql2 ∧
    mem_read (mem ql') (conf_data L) (length data) = Some data ∧
    mem_read (mem ql') gST (Z.to_nat EFI_SYSTEM_TABLE_sizeof) =
      Some (EFI_SYSTEM_TABLE_bytes
              {| RuntimeServices := gRT L; BootServices := gBS L;
                 NumberOfTableEntries := 2; ConfigurationTable := cfg L |}).
Proof.
  intros (ql1 & ql2 & H1 & H2 & ->)%initialize_Return.
  pose proof H1 as (hob & g1 & Hhob & Hg1 & hexstr & data & Hhex & Hdata & E1)%install_Return.
  pose proof H2 as (dxe & g2 & Hdxe & Hg2 & E2)%install_Return.
  exists hob, dxe, g1, hexstr, data, g2, ql1, ql2.
  assert (profile ql1 = profile ql) as Hp by (by subst ql1).
  rewrite Hp in Hdxe. do 6 (split; [done|]). intros L.
  assert (efi_conf_table_array ql1 = [{| VendorGuid := g1; VendorTable := conf_data L |}])
    as Hc1 by (by subst ql1).
  assert (efi_conf_table_array ql2 =
            [{| VendorGuid := g1; VendorTable := conf_data L |};
             {| VendorGuid := g2; VendorTable := gDS L |}]) as Hc2.
  { subst ql2. rewrite CoreInstallConfigurationTable_eq. simpl. by rewrite Hc1. }
  do 4 (split; [done|]).
  split; [unfold system_table; by rewrite Hc2|].
  clear H1 H2 Hc1 Hc2. subst ql2 ql1. split.
  - simpl. destruct (layout_order gST) as [Hlo1 Hlo2].
    pose proof EFI_CONFIGURATION_TABLE_sizeof_nonneg as Hnn.
    rewrite mem_read_write_disjoint
      by (right; rewrite EFI_SYSTEM_TABLE_bytes_length; simpl in *; lia).
    rewrite mem_read_write_disjoint
      by (right; unfold slot; rewrite EFI_CONFIGURATION_TABLE_bytes_length;
          simpl in *; lia).
    rewrite mem_read_write_disjoint
      by (right; unfold slot; rewrite EFI_CONFIGURATION_TABLE_bytes_length;
          simpl in *; lia).
    apply mem_read_write.
  - simpl. erewrite system_table_size. apply mem_read_write.
Qed.


(** C8: for a name that the profile does not hold, the call raises the
    missing-configuration exception ([KeyError] of that name) and the
    session, registry list, cursor and guest memory included, is as before
    the call. *)
Theorem unknown_name_is_not_found key (t : option Z) ql :
  profile ql !! key = None →
  ∃ e,
    install_configuration_table key t ql = (Raise e, ql) ∧
    e = KeyError key ∧ ConfigurationNotFound e = true.
Proof.
  intros H. exists (KeyError key). split; [|done].
  by apply install_missing_section.
Qed.

(** C9: a call with no explicit address whose profile payload is not a
    well-formed hex encoding raises a payload-decoding exception, and the
    session is as before the call: no byte written, cursor and registry list
    unchanged. *)
Theorem malformed_payload_is_refused key ql (cfgtable : gmap string string) guid hexstr :
  profile ql !! key = Some cfgtable →
  cfgtable !! "Guid" = Some guid →
  cfgtable !! "TableData" = Some hexstr →
  well_formed_hex hexstr = false →
  ∃ e,
    install_configuration_table key None ql = (Raise e, ql) ∧
    PayloadDecodeError e = true.
Proof.
  intros Hsec Hguid Hdata Hwf.
  destruct (unhexlify_malformed hexstr Hwf) as (e & He & Hdec).
  exists e. split; [|done]. by eapply install_bad_data.
Qed.

(** C10: with an explicit address the payload field of the section is never
    read: a section that has a vendor identifier and no payload is installed,
    its entry appended to the list and written to the array slot, while the
    same section fails in the payload-copy path; and the outcome with an
    explicit address is the same for any section with that identifier,
    whatever its payload field holds. *)
Theorem explicit_address_skips_payload key (table : Z) ql
    (cfgtable : gmap string string) guid :
  profile ql !! key = Some cfgtable →
  cfgtable !! "Guid" = Some guid →
  cfgtable !! "TableData" = None →
  let entry := {| VendorGuid := guid; VendorTable := table |} in
  let installed (ql0 ql1 : Qiling) :=
    efi_conf_table_array ql1 = (efi_conf_table_array ql0 ++ [entry])%list ∧
    mem ql1 = mem_write (mem ql0) (slot ql0 (length (efi_conf_table_array ql0)))
                (EFI_CONFIGURATION_TABLE_bytes entry) ∧
    efi_conf_table_data_next_ptr ql1 = efi_conf_table_data_next_ptr ql0 in
  (fst (install_configuration_table key (Some table) ql) = Return tt ∧
   installed ql (snd (install_configuration_table key (Some table) ql))) ∧
  install_configuration_table key None ql = (Raise (KeyError "TableData"), ql) ∧
  (∀ ql2 (cfgtable2 : gmap string string),
     same_machine ql ql2 →
     profile ql2 !! key = Some cfgtable2 →
     cfgtable2 !! "Guid" = Some guid →
     fst (install_configuration_table key (Some table) ql2) = Return tt ∧
     installed ql2 (snd (install_configuration_table key (Some table) ql2)) ∧
     same_machine (snd (install_configuration_table key (Some table) ql))
                  (snd (install_configuration_table key (Some table) ql2))).
Proof.
  intros Hsec Hguid Hdata entry installed. subst installed. split_and!.
  - erewrite install_explicit by done. by rewrite CoreInstallConfigurationTable_eq.
  - erewrite install_explicit by done. by rewrite CoreInstallConfigurationTable_eq.
  - erewrite install_explicit by done. by rewrite CoreInstallConfigurationTable_eq.
  - erewrite install_explicit by done. by rewrite CoreInstallConfigurationTable_eq.
  - by eapply install_missing_data.
  - intros ql2 cfgtable2 (Hm & Hl & Ha & Hd & Hn) Hsec2 Hguid2.
    erewrite !install_explicit by done.
    rewrite !CoreInstallConfigurationTable_eq. unfold same_machine, slot. simpl.
    by rewrite Hm, Hl, Ha, Hd, Hn.
Qed.

End claims.

(** * The claims on the example session *)

Lemma length_fit (n : nat) (l : list byte) : length (fit n l) = n.
Proof. unfold fit. rewrite length_take, length_app, length_replicate. lia. Qed.

Lemma example_spec_layout : UefiSpecLayout example_spec.
Proof. split; simpl; intros; rewrite ?length_fit; lia. Qed.

Lemma install_keeps_array_in_step_witness :
  (∃ entry,
     efi_conf_table_array example_one = [entry] ∧
     read_slot (U := example_spec) example_one 0
       = Some (EFI_CONFIGURATION_TABLE_bytes (UefiSpec := example_spec) entry)) ∧
  mirrored (U := example_spec) example_booted ∧
  mem_read (mem example_booted) 0x10000000 0x80 =
    Some (EFI_SYSTEM_TABLE_bytes (UefiSpec := example_spec)
            (system_table (U := example_spec) 0x10000000 example_booted)) ∧
  NumberOfTableEntries (system_table (U := example_spec) 0x10000000 example_booted) = 2.
Proof.
  destruct (install_keeps_array_in_step (U := example_spec) (HU := example_spec_layout))
    as [Hcall Hboot].
  split.
  - apply (Hcall "HOB_LIST" None (prepared (U := example_spec) 0x10000000 example_ql)
             example_one).
    vm_compute. reflexivity.
  - destruct (Hboot 0x10000000 example_ql example_booted) as (Hm & Hr & Hn).
    + vm_compute. reflexivity.
    + split; [exact Hm|]. split; [exact Hr|]. vm_compute. reflexivity.
Defined.

Lemma payload_copy_advances_cursor_witness :
  let C := efi_conf_table_data_next_ptr example_booted in
  ∃ ql',
    install_configuration_table (U := example_spec) "HOB_LIST" None example_booted
      = (Return tt, ql') ∧
    efi_conf_table_array ql' =
      (efi_conf_table_array example_booted
         ++ [{| VendorGuid := "7739f24c-93d7-11d4-9a3a-0090273fc14d";
                VendorTable := C |}])%list ∧
    efi_conf_table_data_next_ptr ql' = C + 2 ∧
    mem_read (mem ql') C 2 = Some [0xAA; 0xBB].
Proof.
  intros C.
  destruct (payload_copy_advances_cursor (U := example_spec) "HOB_LIST" example_booted
              example_hob "7739f24c-93d7-11d4-9a3a-0090273fc14d" "aabb")
    as (data & ql' & Hun & Hlen & Hrun & Hmem & Hlist & Hcur & Hread);
    [vm_compute; reflexivity..|].
  assert (data = [0xAA; 0xBB]) as -> by (vm_compute in Hun; congruence).
  exists ql'. split; [exact Hrun|]. split; [exact Hlist|]. split; [exact Hcur|].
  apply Hread. right. vm_compute. discriminate.
Defined.

Lemma explicit_address_keeps_cursor_witness :
  let out := install_configuration_table (U := example_spec)
               "DXE_SERVICE_TABLE" (Some 0x10000238) example_one in
  let entry := {| VendorGuid := "05ad34ba-6f02-4214-952e-4da0398e2bb9";
                  VendorTable := 0x10000238 |} in
  length (efi_conf_table_array example_one) = 1%nat ∧
  fst out = Return tt ∧
  efi_conf_table_array (snd out) = (efi_conf_table_array example_one ++ [entry])%list ∧
  read_slot (U := example_spec) (snd out) 1
    = Some (EFI_CONFIGURATION_TABLE_bytes (UefiSpec := example_spec) entry) ∧
  efi_conf_table_data_next_ptr (snd out) = efi_conf_table_data_next_ptr example_one.
Proof.
  intros out entry.
  destruct (explicit_address_keeps_cursor (U := example_spec) (HU := example_spec_layout)
              "DXE_SERVICE_TABLE" 0x10000238 example_one) as (Hcur & _ & Hok).
  destruct (Hok example_dxe "05ad34ba-6f02-4214-952e-4da0398e2bb9")
    as (Hret & Hlist & _ & Hslot); [vm_compute; reflexivity..|].
  split; [vm_compute; reflexivity|].
  split; [exact Hret|]. split; [exact Hlist|]. split; [exact Hslot|exact Hcur].
Defined.

Lemma layout_is_contiguous_witness :
  let L := layout (U := example_spec) 0x10000000 in
  (gBS L = 0x10000080 ∧ gRT L = 0x100001C0 ∧ gDS L = 0x10000238 ∧
   cfg L = 0x10000290 ∧ conf_data L = 0x10000BF0) ∧
  (0x10000000 < gBS L ∧ gBS L < gRT L ∧ gRT L < gDS L ∧ gDS L < cfg L ∧
   cfg L < conf_data L) ∧
  efi_conf_table_array_ptr example_booted = cfg L ∧
  efi_conf_table_data_ptr example_booted = conf_data L.
Proof.
  intros L.
  destruct (layout_is_contiguous (U := example_spec) 0x10000000)
    as (Heq & Hord & Hptr); [simpl; lia..|].
  split; [vm_compute; by repeat split|]. split; [exact Hord|].
  exact (Hptr example_ql).
Defined.

Lemma system_table_written_at_base_witness :
  mem_read (mem example_booted) 0x10000000 0x80 =
    Some (EFI_SYSTEM_TABLE_bytes (UefiSpec := example_spec)
            {| RuntimeServices := 0x100001C0; BootServices := 0x10000080;
               NumberOfTableEntries := 2; ConfigurationTable := 0x10000290 |}).
Proof.
  apply (system_table_written_at_base (U := example_spec) (HU := example_spec_layout)
           0x10000000 example_ql example_booted).
  vm_compute. reflexivity.
Defined.

Lemma initialize_installs_two_defaults_witness :
  initialize (U := example_spec) 0x10000000 example_ql = (Return tt, example_booted) ∧
  efi_conf_table_array example_booted =
    [{| VendorGuid := "7739f24c-93d7-11d4-9a3a-0090273fc14d"; VendorTable := 0x10000BF0 |};
     {| VendorGuid := "05ad34ba-6f02-4214-952e-4da0398e2bb9"; VendorTable := 0x10000238 |}] ∧
  mem_read (mem example_booted) 0x10000BF0 2 = Some [0xAA; 0xBB] ∧
  mem_read (mem example_booted) 0x10000000 0x80 =
    Some (EFI_SYSTEM_TABLE_bytes (UefiSpec := example_spec)
            {| RuntimeServices := 0x100001C0; BootServices := 0x10000080;
               NumberOfTableEntries := 2; ConfigurationTable := 0x10000290 |}).
Proof.
  assert (initialize (U := example_spec) 0x10000000 example_ql = (Return tt, example_booted))
    as Hrun by (vm_compute; reflexivity).
  split; [exact Hrun|].
  destruct (initialize_installs_two_defaults (U := example_spec) (HU := example_spec_layout)
              0x10000000 example_ql example_booted Hrun)
    as (hob & dxe & g1 & hexstr & data & g2 & ql1 & ql2 & Hhob & Hg1 & Hhex & Hdata
        & Hdxe & Hg2 & _ & _ & _ & Hlist & Hql' & Hpayload & Hroot).
  vm_compute in Hhob. injection Hhob as <-.
  vm_compute in Hdxe. injection Hdxe as <-.
  vm_compute in Hg1. injection Hg1 as <-.
  vm_compute in Hg2. injection Hg2 as <-.
  vm_compute in Hhex. injection Hhex as <-.
  vm_compute in Hdata. injection Hdata as <-.
  split; [|split; [exact Hpayload|exact Hroot]].
  rewrite Hql'. simpl. exact Hlist.
Defined.



Lemma unknown_name_is_not_found_witness :
  profile example_booted !! "SMBIOS_TABLE" = None ∧
  install_configuration_table (U := example_spec) "SMBIOS_TABLE" None example_booted
    = (Raise (KeyError "SMBIOS_TABLE"), example_booted).
Proof.
  assert (profile example_booted !! "SMBIOS_TABLE" = None) as Hnone
    by (vm_compute; reflexivity).
  split; [exact Hnone|].
  destruct (unknown_name_is_not_found (U := example_spec) "SMBIOS_TABLE" None
              example_booted Hnone) as (e & Hrun & -> & _).
  exact Hrun.
Defined.

Lemma malformed_payload_is_refused_witness :
  well_formed_hex "aabbc" = false ∧
  ∃ e,
    install_configuration_table (U := example_spec) "BROKEN" None example_booted
      = (Raise e, example_booted) ∧
    PayloadDecodeError e = true.
Proof.
  split; [reflexivity|].
  apply (malformed_payload_is_refused (U := example_spec) "BROKEN" example_booted
           example_broken "00000000-0000-0000-0000-000000000000" "aabbc");
    vm_compute; reflexivity.
Defined.

Lemma explicit_address_skips_payload_witness :
  let out := install_configuration_table (U := example_spec)
               "DXE_SERVICE_TABLE" (Some 0x10000238) example_one in
  example_dxe !! "TableData" = None ∧
  fst out = Return tt ∧
  efi_conf_table_array (snd out) =
    (efi_conf_table_array example_one
       ++ [{| VendorGuid := "05ad34ba-6f02-4214-952e-4da0398e2bb9";
              VendorTable := 0x10000238 |}])%list ∧
  install_configuration_table (U := example_spec) "DXE_SERVICE_TABLE" None example_one
    = (Raise (KeyError "TableData"), example_one).
Proof.
  intros out. split; [vm_compute; reflexivity|].
  destruct (explicit_address_skips_payload (U := example_spec)
              "DXE_SERVICE_TABLE" 0x10000238 example_one example_dxe
              "05ad34ba-6f02-4214-952e-4da0398e2bb9")
    as ((Hok & Hlist & _) & Hfail & _); [vm_compute; reflexivity..|].
  split; [exact Hok|]. split; [exact Hlist|exact Hfail].
Defined.

(** * Further properties of the installer and of the bootstrap *)

Lemma unhexlify_Return (s : string) (d : list byte) :
  unhexlify s = Return d →
  well_formed_hex s = true ∧ String.length s = (2 * length d)%nat.
Proof.
  unfold unhexlify. destruct (is_ascii s); simpl; [|done].
  destruct (Nat.odd _); [done|].
  destruct (a2b_hex s) as [d'|] eqn:E; [|done].
  intros [= <-]. by apply a2b_hex_Some.
Qed.

Lemma digit_value_bound (c : ascii) (v : Z) : digit_value c = Some v → 0 ≤ v ≤ 15.
Proof.
  unfold digit_value. intros H.
  repeat case_match; simplify_eq;
    repeat match goal with
           | H : _ && _ = true |- _ => apply andb_prop in H as [? ?]
           | H : (_ <=? _) = true |- _ => apply Z.leb_le in H
           end; lia.
Qed.

Lemma a2b_hex_octets (s : string) (d : list byte) :
  a2b_hex s = Some d → Forall (λ b, 0 ≤ b ≤ 255) d.
Proof.
  revert d. induction s as [|c|c1 c2 s IH] using string_pair_ind; intros d; simpl.
  - by intros [= <-].
  - done.
  - destruct (digit_value c1) as [top|] eqn:E1; [|done].
    destruct (digit_value c2) as [bot|] eqn:E2; [|done].
    destruct (a2b_hex s) as [d'|]; [|done].
    intros [= <-]. constructor; [|by apply IH].
    apply digit_value_bound in E1, E2. lia.
Qed.

Section extras.
Context {U : UefiSpec}.
Implicit Types (ql : Qiling) (gST : Z) (key guid : string).

(** X1: [install_configuration_table] returns exactly when the profile has
    the section, the section has a [Guid], and, when no address is given,
    the section has a [TableData] that is a well-formed hex string. *)
Theorem install_returns_iff key (t : option Z) ql :
  fst (install_configuration_table key t ql) = Return tt ↔
  ∃ (cfgtable : gmap string string) guid,
    profile ql !! key = Some cfgtable ∧ cfgtable !! "Guid" = Some guid ∧
    (t = None →
     ∃ hexstr, cfgtable !! "TableData" = Some hexstr ∧ well_formed_hex hexstr = true).
Proof.
  split.
  - destruct (install_configuration_table key t ql) as [[[]|e] ql'] eqn:H; [|done].
    intros _. apply install_Return in H as (cfgtable & guid & Hsec & Hguid & H).
    exists cfgtable, guid. split_and!; [done..|]. intros ->.
    destruct H as (hexstr & data & Hhex & Hdata & _).
    exists hexstr. split; [done|]. by apply unhexlify_Return in Hdata as [? _].
  - intros (cfgtable & guid & Hsec & Hguid & Hdata). destruct t as [table|].
    + erewrite install_explicit by done. by rewrite CoreInstallConfigurationTable_eq.
    + destruct Hdata as (hexstr & Hhex & Hwf); [done|].
      destruct (unhexlify_well_formed hexstr Hwf) as (data & Hun & _).
      erewrite install_payload by done. by rewrite CoreInstallConfigurationTable_eq.
Qed.

(** X2: a call that raises leaves the session exactly as it found it, and
    the exception tells the first thing that was wrong, in this order: the
    section is missing ([KeyError] of the name), the section has no [Guid],
    and, only when no address is given, the section has no [TableData] or
    [unhexlify] refuses it. *)
Theorem install_raises_first_fault key (t : option Z) ql e :
  fst (install_configuration_table key t ql) = Raise e →
  snd (install_configuration_table key t ql) = ql ∧
  (profile ql !! key = None ∧ e = KeyError key ∨
   ∃ cfgtable : gmap string string,
     profile ql !! key = Some cfgtable ∧
     (cfgtable !! "Guid" = None ∧ e = KeyError "Guid" ∨
      is_Some (cfgtable !! "Guid") ∧ t = None ∧
      (cfgtable !! "TableData" = None ∧ e = KeyError "TableData" ∨
       ∃ hexstr, cfgtable !! "TableData" = Some hexstr ∧
                 well_formed_hex hexstr = false ∧ unhexlify hexstr = Raise e))).
Proof. apply install_fault. Qed.

(** X3: whatever its outcome, a call keeps the profile, the array pointer
    and the start of the data region, never moves the cursor backwards, and
    only ever extends the registry list, by at most one entry. *)
Theorem install_is_append_only key (t : option Z) ql :
  let ql' := snd (install_configuration_table key t ql) in
  profile ql' = profile ql ∧
  efi_conf_table_array_ptr ql' = efi_conf_table_array_ptr ql ∧
  efi_conf_table_data_ptr ql' = efi_conf_table_data_ptr ql ∧
  efi_conf_table_data_next_ptr ql ≤ efi_conf_table_data_next_ptr ql' ∧
  efi_conf_table_array ql `prefix_of` efi_conf_table_array ql' ∧
  (length (efi_conf_table_array ql') ≤ S (length (efi_conf_table_array ql)))%nat.
Proof.
  destruct (install_configuration_table key t ql) as [[[]|e] ql'] eqn:H; simpl.
  - apply install_Return in H as (cfgtable & guid & _ & _ & H).
    destruct t as [table|].
    + subst ql'. rewrite CoreInstallConfigurationTable_eq. simpl.
      split_and!; try done; [by eexists|rewrite length_app; simpl; lia].
    + destruct H as (hexstr & data & _ & _ & ->).
      rewrite CoreInstallConfigurationTable_eq. simpl.
      split_and!; try done; [lia|by eexists|rewrite length_app; simpl; lia].
  - apply install_Raise in H as [-> _]. split_and!; try done; lia.
Qed.

(** X4: in a laid-out session with fewer than 100 entries, a call writes
    its array slot inside the 100 reserved slots and changes no byte of the
    data region below the cursor: payloads copied earlier stay as they are. *)
Theorem install_keeps_copied_payloads {HU : UefiSpecLayout U} key (t : option Z) ql :
  laid_out ql →
  (length (efi_conf_table_array ql) < 100)%nat →
  slot ql (length (efi_conf_table_array ql)) + EFI_CONFIGURATION_TABLE_sizeof
    ≤ efi_conf_table_array_ptr ql + EFI_CONFIGURATION_TABLE_sizeof * 100 ∧
  ∀ x, efi_conf_table_data_ptr ql ≤ x < efi_conf_table_data_next_ptr ql →
       mem (snd (install_configuration_table key t ql)) !! x = mem ql !! x.
Proof.
  intros [Harr Hcur] Hlen.
  pose proof EFI_CONFIGURATION_TABLE_sizeof_nonneg as Hnn.
  assert (slot ql (length (efi_conf_table_array ql)) + EFI_CONFIGURATION_TABLE_sizeof
            ≤ efi_conf_table_array_ptr ql + EFI_CONFIGURATION_TABLE_sizeof * 100) as Hslot
    by (unfold slot; nia).
  split; [done|]. intros x Hx.
  destruct (install_configuration_table key t ql) as [[[]|e] ql'] eqn:H; simpl.
  - apply install_Return in H as (cfgtable & guid & _ & _ & H).
    destruct t as [table|].
    + subst ql'. rewrite CoreInstallConfigurationTable_eq. simpl.
      apply lookup_mem_write_outside.
      rewrite EFI_CONFIGURATION_TABLE_bytes_length. lia.
    + destruct H as (hexstr & data & _ & _ & ->).
      rewrite CoreInstallConfigurationTable_eq. simpl.
      rewrite lookup_mem_write_outside
        by (rewrite EFI_CONFIGURATION_TABLE_bytes_length; unfold slot in *; simpl; lia).
      apply lookup_mem_write_outside. lia.
  - by apply install_Raise in H as [-> _].
Qed.

(** X5: being laid out with a mirrored array is an invariant of the
    installer up to the capacity: from a laid-out session with at most 100
    entries whose array mirrors the list, any call, returning or raising,
    leads to a laid-out session whose array mirrors the list. *)
Theorem install_keeps_registry_consistent {HU : UefiSpecLayout U} key (t : option Z) ql :
  laid_out ql →
  (length (efi_conf_table_array ql) ≤ 100)%nat →
  mirrored ql →
  laid_out (snd (install_configuration_table key t ql)) ∧
  mirrored (snd (install_configuration_table key t ql)).
Proof.
  intros [Harr Hcur] Hlen Hmir.
  pose proof EFI_CONFIGURATION_TABLE_sizeof_nonneg as Hnn.
  destruct (install_configuration_table key t ql) as [[[]|e] ql'] eqn:H; simpl.
  - apply install_Return in H as (cfgtable & guid & _ & _ & H).
    destruct t as [table|].
    + subst ql'. split; [by rewrite CoreInstallConfigurationTable_eq|].
      by apply CoreInstallConfigurationTable_mirrored.
    + destruct H as (hexstr & data & _ & _ & ->). split.
      * rewrite CoreInstallConfigurationTable_eq. unfold laid_out. simpl. lia.
      * apply CoreInstallConfigurationTable_mirrored.
        apply (mem_write_mirrored ql (efi_conf_table_data_next_ptr ql) data);
          [|done].
        right. unfold slot. nia.
  - by apply install_Raise in H as [-> _].
Qed.

(** X6: [initialize] lays the session out whatever its outcome: the array
    pointer is [cfg], the data region starts 100 entry sizes after it, and
    the cursor is at or beyond the start of the data region, also when one
    of the two installs raises. *)
Theorem initialize_lays_out gST ql :
  let ql' := snd (initialize gST ql) in
  laid_out ql' ∧
  efi_conf_table_data_ptr ql' =
    efi_conf_table_array_ptr ql' + EFI_CONFIGURATION_TABLE_sizeof * 100 ∧
  (length (efi_conf_table_array ql') ≤ 2)%nat.
Proof.
  rewrite initialize_eq.
  destruct (install_configuration_table "HOB_LIST" None (prepared gST ql))
    as [[[]|e1] ql1] eqn:H1.
  - apply install_Return in H1 as (hob & g1 & _ & _ & hexstr & data & _ & _ & ->).
    destruct (install_configuration_table "DXE_SERVICE_TABLE" _ _)
      as [[[]|e2] ql2] eqn:H2.
    + apply install_Return in H2 as (dxe & g2 & _ & _ & ->).
      unfold laid_out. simpl. split_and!; lia.
    + apply install_Raise in H2 as [-> _]. unfold laid_out. simpl. split_and!; lia.
  - apply install_Raise in H1 as [-> _]. unfold laid_out. simpl. split_and!; lia.
Qed.

(** X7: two payload installs in a row allocate adjacent blocks: the second
    pointer is the first pointer plus the length of the first payload, the
    cursor ends after both, and in a laid-out session with room for two more
    entries both payloads read back from their pointers afterwards. *)
Theorem consecutive_payloads_are_adjacent {HU : UefiSpecLayout U} key1 key2 ql
    (cfgtable1 cfgtable2 : gmap string string) guid1 guid2 hexstr1 hexstr2 :
  laid_out ql →
  (length (efi_conf_table_array ql) + 2 ≤ 100)%nat →
  profile ql !! key1 = Some cfgtable1 → cfgtable1 !! "Guid" = Some guid1 →
  cfgtable1 !! "TableData" = Some hexstr1 → well_formed_hex hexstr1 = true →
  profile ql !! key2 = Some cfgtable2 → cfgtable2 !! "Guid" = Some guid2 →
  cfgtable2 !! "TableData" = Some hexstr2 → well_formed_hex hexstr2 = true →
  ∃ data1 data2 ql1 ql2,
    unhexlify hexstr1 = Return data1 ∧ unhexlify hexstr2 = Return data2 ∧
    install_configuration_table key1 None ql = (Return tt, ql1) ∧
    install_configuration_table key2 None ql1 = (Return tt, ql2) ∧
    let C := efi_conf_table_data_next_ptr ql in
    let C2 := C + Z.of_nat (length data1) in
    efi_conf_table_array ql2 =
      (efi_conf_table_array ql
         ++ [{| VendorGuid := guid1; VendorTable := C |};
             {| VendorGuid := guid2; VendorTable := C2 |}])%list ∧
    efi_conf_table_data_next_ptr ql2 = C2 + Z.of_nat (length data2) ∧
    mem_read (mem ql2) C (length data1) = Some data1 ∧
    mem_read (mem ql2) C2 (length data2) = Some data2.
Proof.
  intros [Harr Hcur] Hlen Hs1 Hg1 Hh1 Hw1 Hs2 Hg2 Hh2 Hw2.
  pose proof EFI_CONFIGURATION_TABLE_sizeof_nonneg as Hnn.
  destruct (unhexlify_well_formed hexstr1 Hw1) as (data1 & Hd1 & _).
  destruct (unhexlify_well_formed hexstr2 Hw2) as (data2 & Hd2 & _).
  pose proof (install_payload key1 ql cfgtable1 guid1 hexstr1 data1 Hs1 Hg1 Hh1 Hd1) as E1.
  rewrite CoreInstallConfigurationTable_eq in E1. simpl in E1.
  match type of E1 with _ = (_, ?q) => set (ql1 := q) in * end.
  pose proof (install_payload key2 ql1 cfgtable2 guid2 hexstr2 data2 Hs2 Hg2 Hh2 Hd2) as E2.
  rewrite CoreInstallConfigurationTable_eq in E2. simpl in E2.
  match type of E2 with _ = (_, ?q) => set (ql2 := q) in * end.
  exists data1, data2, ql1, ql2. split_and!; [done..|].
  intros C C2. split_and!.
  - simpl. by rewrite <- app_assoc.
  - done.
  - simpl. fold C C2.
    rewrite mem_read_write_disjoint
      by (right; rewrite EFI_CONFIGURATION_TABLE_bytes_length, length_app;
          unfold slot in *; simpl; nia).
    rewrite mem_read_write_disjoint by (left; lia).
    rewrite mem_read_write_disjoint
      by (right; rewrite EFI_CONFIGURATION_TABLE_bytes_length;
          unfold slot in *; simpl; nia).
    apply mem_read_write.
  - simpl. fold C C2.
    rewrite mem_read_write_disjoint
      by (right; rewrite EFI_CONFIGURATION_TABLE_bytes_length, length_app;
          unfold slot in *; simpl; nia).
    apply mem_read_write.
Qed.

(** X8: [initialize] returns exactly when the profile has a [HOB_LIST]
    section with a [Guid] and a well-formed hex [TableData], and a
    [DXE_SERVICE_TABLE] section with a [Guid]. *)
Theorem initialize_returns_iff gST ql :
  fst (initialize gST ql) = Return tt ↔
  ∃ (hob dxe : gmap string string) g1 hexstr g2,
    profile ql !! "HOB_LIST" = Some hob ∧ hob !! "Guid" = Some g1 ∧
    hob !! "TableData" = Some hexstr ∧ well_formed_hex hexstr = true ∧
    profile ql !! "DXE_SERVICE_TABLE" = Some dxe ∧ dxe !! "Guid" = Some g2.
Proof.
  split.
  - destruct (initialize gST ql) as [[[]|e] ql'] eqn:H; [|done]. intros _.
    apply initialize_shape in H
      as (hob & dxe & g1 & hexstr & data & g2 & H1 & H2 & H3 & H4 & H5 & H6 & _).
    exists hob, dxe, g1, hexstr, g2. split_and!; try done.
    by apply unhexlify_Return in H4 as [? _].
  - intros (hob & dxe & g1 & hexstr & g2 & H1 & H2 & H3 & H4 & H5 & H6).
    by eapply initialize_succeeds.
Qed.

(** X9: when the [HOB_LIST] section cannot be installed, [initialize] raises
    the very exception that the install of [HOB_LIST] raises, which names the
    first fault of that section, and stops there, whatever the rest of the
    profile holds: the three service tables are initialized, the registry is
    empty, the pointers are set, and no root record is written. *)
Theorem initialize_stops_at_hob_list gST ql :
  ¬ (∃ (hob : gmap string string) g1 hexstr,
       profile ql !! "HOB_LIST" = Some hob ∧ hob !! "Guid" = Some g1 ∧
       hob !! "TableData" = Some hexstr ∧ well_formed_hex hexstr = true) →
  ∃ e,
    install_configuration_table "HOB_LIST" None (prepared gST ql)
      = (Raise e, prepared gST ql) ∧
    initialize gST ql = (Raise e, prepared gST ql) ∧
    (profile ql !! "HOB_LIST" = None ∧ e = KeyError "HOB_LIST" ∨
     ∃ hob : gmap string string,
       profile ql !! "HOB_LIST" = Some hob ∧
       (hob !! "Guid" = None ∧ e = KeyError "Guid" ∨
        is_Some (hob !! "Guid") ∧
        (hob !! "TableData" = None ∧ e = KeyError "TableData" ∨
         ∃ hexstr, hob !! "TableData" = Some hexstr ∧
                   well_formed_hex hexstr = false ∧ unhexlify hexstr = Raise e))).
Proof.
  intros Hno. rewrite initialize_eq.
  destruct (install_configuration_table "HOB_LIST" None (prepared gST ql))
    as [[[]|e] ql1] eqn:H1.
  - apply install_Return in H1 as (hob & g1 & Hs & Hg & hexstr & data & Hh & Hd & _).
    destruct Hno. exists hob, g1, hexstr. split_and!; try done.
    by apply unhexlify_Return in Hd as [? _].
  - pose proof (install_fault "HOB_LIST" None (prepared gST ql) e) as Hfault.
    rewrite H1 in Hfault. simpl in Hfault. destruct (Hfault eq_refl) as [-> Hcases].
    exists e. split_and!; [done..|].
    destruct Hcases as [?|(hob & Hs & [?|(Hg & _ & Hd)])]; [by left|right..].
    + exists hob. split; [done|]. by left.
    + exists hob. split; [done|]. right. by split.
Qed.

(** X10: when [HOB_LIST] installs and the [DXE_SERVICE_TABLE] section is
    missing or has no [Guid], [initialize] raises a [KeyError] and does not
    undo the first install: the registry holds the one HOB_LIST entry, the
    payload was copied and the cursor advanced, and the root record is not
    written. *)
Theorem initialize_stops_at_dxe_services gST ql (hob : gmap string string)
    g1 hexstr :
  profile ql !! "HOB_LIST" = Some hob → hob !! "Guid" = Some g1 →
  hob !! "TableData" = Some hexstr → well_formed_hex hexstr = true →
  ¬ (∃ (dxe : gmap string string) g2,
       profile ql !! "DXE_SERVICE_TABLE" = Some dxe ∧ dxe !! "Guid" = Some g2) →
  ∃ e data ql',
    initialize gST ql = (Raise e, ql') ∧
    ConfigurationNotFound e = true ∧
    unhexlify hexstr = Return data ∧
    let L := layout gST in
    let entry := {| VendorGuid := g1; VendorTable := conf_data L |} in
    efi_conf_table_array ql' = [entry] ∧
    efi_conf_table_data_next_ptr ql' = conf_data L + Z.of_nat (length data) ∧
    mem ql' =
      mem_write (mem_write (mem (prepared gST ql)) (conf_data L) data)
        (cfg L + 0 * EFI_CONFIGURATION_TABLE_sizeof)
        (EFI_CONFIGURATION_TABLE_bytes entry).
Proof.
  intros Hs Hg Hh Hw Hno.
  destruct (unhexlify_well_formed hexstr Hw) as (data & Hd & _).
  pose proof (install_payload "HOB_LIST" (prepared gST ql) hob g1 hexstr data
                Hs Hg Hh Hd) as E1.
  rewrite CoreInstallConfigurationTable_eq in E1. simpl in E1.
  match type of E1 with _ = (_, ?q) => set (ql1 := q) in * end.
  destruct (install_configuration_table "DXE_SERVICE_TABLE"
              (Some (gDS (layout gST))) ql1) as [[[]|e] ql2] eqn:H2.
  - apply install_Return in H2 as (dxe & g2 & Hs2 & Hg2 & _).
    destruct Hno. by exists dxe, g2.
  - pose proof H2 as [-> He]%install_Raise.
    exists e, data, ql1. split_and!; try done.
    + by rewrite initialize_eq, E1, H2.
    + destruct (profile ql1 !! "DXE_SERVICE_TABLE") as [dxe|] eqn:Hs2.
      * destruct (dxe !! "Guid") as [g2|] eqn:Hg2.
        { erewrite install_explicit in H2 by done.
          by rewrite CoreInstallConfigurationTable_eq in H2. }
        erewrite install_missing_guid in H2 by done. by injection H2 as <-.
      * rewrite install_missing_section in H2 by done. by injection H2 as <-.
Qed.

(** X11: running [initialize] again on a session it has booted returns
    again and rebuilds the same registry: the list is reset, not extended,
    and the cursor and both pointers come out as after the first run. *)
Theorem initialize_again_rebuilds_registry gST ql :
  fst (initialize gST ql) = Return tt →
  let ql' := snd (initialize gST ql) in
  let ql'' := snd (initialize gST ql') in
  fst (initialize gST ql') = Return tt ∧
  efi_conf_table_array ql'' = efi_conf_table_array ql' ∧
  efi_conf_table_array_ptr ql'' = efi_conf_table_array_ptr ql' ∧
  efi_conf_table_data_ptr ql'' = efi_conf_table_data_ptr ql' ∧
  efi_conf_table_data_next_ptr ql'' = efi_conf_table_data_next_ptr ql'.
Proof.
  destruct (initialize gST ql) as [[[]|e] ql'] eqn:H; [|done]. intros _. simpl.
  apply initialize_shape in H
    as (hob & dxe & g1 & hexstr & data & g2 & H1 & H2 & H3 & H4 & H5 & H6 & ->).
  rewrite initialize_eq.
  erewrite (install_payload "HOB_LIST") by done.
  rewrite CoreInstallConfigurationTable_eq.
  erewrite (install_explicit "DXE_SERVICE_TABLE") by done.
  by rewrite CoreInstallConfigurationTable_eq.
Qed.

(** X12: a run of [initialize] that returns writes only three regions after
    the service tables are initialized: the root record at [gST], the first
    two array slots at [cfg], and the copied payload between [conf_data] and
    the cursor.  Every other byte is as the service initializers left it. *)
Theorem initialize_writes_three_regions {HU : UefiSpecLayout U} gST ql :
  fst (initialize gST ql) = Return tt →
  let L := layout gST in
  let ql' := snd (initialize gST ql) in
  ∀ x,
    ¬ (gST ≤ x < gST + EFI_SYSTEM_TABLE_sizeof) →
    ¬ (cfg L ≤ x < cfg L + 2 * EFI_CONFIGURATION_TABLE_sizeof) →
    ¬ (conf_data L ≤ x < efi_conf_table_data_next_ptr ql') →
    mem ql' !! x =
      ds_initialize (gDS L) (rt_initialize (gRT L) (bs_initialize (gBS L) (mem ql))) !! x.
Proof.
  destruct (initialize gST ql) as [[[]|e] ql'] eqn:H; [|done].
  intros _ L ql'0 x Hroot Hslots Hdata. subst ql'0. simpl in Hdata |- *.
  apply initialize_shape in H
    as (hob & dxe & g1 & hexstr & data & g2 & _ & _ & _ & _ & _ & _ & ->).
  pose proof EFI_CONFIGURATION_TABLE_sizeof_nonneg as Hnn.
  simpl in *. fold L in Hslots, Hdata |- *.
  rewrite lookup_mem_write_outside
    by (rewrite EFI_SYSTEM_TABLE_bytes_length; lia).
  rewrite lookup_mem_write_outside
    by (rewrite EFI_CONFIGURATION_TABLE_bytes_length; simpl in *; lia).
  rewrite lookup_mem_write_outside
    by (rewrite EFI_CONFIGURATION_TABLE_bytes_length; simpl in *; lia).
  apply lookup_mem_write_outside. simpl in *. lia.
Qed.

(** X13: an empty [TableData] is a valid payload of no bytes: the call
    returns, the entry points at the cursor, the cursor does not move, and
    the only bytes written are those of the array slot. *)
Theorem empty_payload_allocates_nothing key ql (cfgtable : gmap string string) guid :
  profile ql !! key = Some cfgtable →
  cfgtable !! "Guid" = Some guid →
  cfgtable !! "TableData" = Some "" →
  ∃ ql',
    install_configuration_table key None ql = (Return tt, ql') ∧
    let entry := {| VendorGuid := guid;
                    VendorTable := efi_conf_table_data_next_ptr ql |} in
    efi_conf_table_array ql' = (efi_conf_table_array ql ++ [entry])%list ∧
    efi_conf_table_data_next_ptr ql' = efi_conf_table_data_next_ptr ql ∧
    mem ql' = mem_write (mem ql) (slot ql (length (efi_conf_table_array ql)))
                (EFI_CONFIGURATION_TABLE_bytes entry).
Proof.
  intros Hs Hg Hh.
  pose proof (install_payload key ql cfgtable guid "" [] Hs Hg Hh eq_refl) as E.
  rewrite CoreInstallConfigurationTable_eq in E. simpl in E.
  eexists. split; [exact E|]. simpl. split_and!; [done|lia|done].
Qed.

(** X14: a payload install that returns has copied one byte for every two
    characters of the section's [TableData]: the cursor advances by half the
    length of that string, and every byte written is an octet, 0 to 255. *)
Theorem payload_is_half_its_text key ql :
  fst (install_configuration_table key None ql) = Return tt →
  ∃ (cfgtable : gmap string string) hexstr data,
    profile ql !! key = Some cfgtable ∧
    cfgtable !! "TableData" = Some hexstr ∧
    unhexlify hexstr = Return data ∧
    Forall (λ b, 0 ≤ b ≤ 255) data ∧
    efi_conf_table_data_next_ptr (snd (install_configuration_table key None ql)) =
      efi_conf_table_data_next_ptr ql + Z.of_nat (String.length hexstr) / 2.
Proof.
  destruct (install_configuration_table key None ql) as [[[]|e] ql'] eqn:H; [|done].
  intros _. simpl.
  apply install_Return in H
    as (cfgtable & guid & Hs & Hg & hexstr & data & Hh & Hd & ->).
  exists cfgtable, hexstr, data. split_and!; [done..| |].
  - unfold unhexlify in Hd. destruct (negb _); [done|].
    destruct (Nat.odd _); [done|].
    destruct (a2b_hex hexstr) as [d|] eqn:E; [|done].
    injection Hd as <-. by eapply a2b_hex_octets.
  - apply unhexlify_Return in Hd as [_ Hlen].
    rewrite CoreInstallConfigurationTable_eq. simpl. rewrite Hlen.
    rewrite Nat2Z.inj_mul. change (Z.of_nat 2) with 2.
    by rewrite Z.mul_comm, Z.div_mul.
Qed.

End extras.

(** * The further properties on the example sessions *)

Lemma example_extended_laid_out : laid_out (U := example_spec) example_extended.
Proof. unfold laid_out. vm_compute. split; discriminate. Qed.

Lemma example_extended_mirrored : mirrored (U := example_spec) example_extended.
Proof.
  intros i entry Hi. destruct i as [|[|i]].
  - vm_compute in Hi. injection Hi as <-. vm_compute. reflexivity.
  - vm_compute in Hi. injection Hi as <-. vm_compute. reflexivity.
  - vm_compute in Hi. discriminate.
Qed.

Lemma install_raises_first_fault_witness :
  well_formed_hex "zz" = false ∧
  fst (install_configuration_table (U := example_spec) "NO_GUID" None example_extended)
    = Raise (KeyError "Guid") ∧
  snd (install_configuration_table (U := example_spec) "NO_GUID" None example_extended)
    = example_extended.
Proof.
  assert (fst (install_configuration_table (U := example_spec) "NO_GUID" None
                 example_extended) = Raise (KeyError "Guid")) as Hraise
    by (vm_compute; reflexivity).
  split; [reflexivity|]. split; [exact Hraise|].
  exact (proj1 (install_raises_first_fault (U := example_spec) "NO_GUID" None
                  example_extended (KeyError "Guid") Hraise)).
Defined.

Lemma install_keeps_copied_payloads_witness :
  mem (snd (install_configuration_table (U := example_spec)
              "SMBIOS_TABLE" None example_extended)) !! 0x10000BF1
    = mem example_extended !! 0x10000BF1.
Proof.
  assert (length (efi_conf_table_array example_extended) < 100)%nat as Hlen
    by (vm_compute; lia).
  apply (proj2 (install_keeps_copied_payloads (U := example_spec)
                  (HU := example_spec_layout) "SMBIOS_TABLE" None example_extended
                  example_extended_laid_out Hlen)).
  vm_compute. split; [discriminate|reflexivity].
Defined.

Lemma install_keeps_registry_consistent_witness :
  laid_out (U := example_spec)
    (snd (install_configuration_table (U := example_spec)
            "SMBIOS_TABLE" None example_extended)) ∧
  mirrored (U := example_spec)
    (snd (install_configuration_table (U := example_spec)
            "SMBIOS_TABLE" None example_extended)).
Proof.
  apply (install_keeps_registry_consistent (U := example_spec)
           (HU := example_spec_layout) "SMBIOS_TABLE" None example_extended).
  - exact example_extended_laid_out.
  - vm_compute. lia.
  - exact example_extended_mirrored.
Defined.

Lemma consecutive_payloads_are_adjacent_witness :
  ∃ data1 data2 ql1 ql2,
    unhexlify "5F534D5f" = Return data1 ∧ unhexlify "aabb" = Return data2 ∧
    install_configuration_table (U := example_spec) "SMBIOS_TABLE" None example_extended
      = (Return tt, ql1) ∧
    install_configuration_table (U := example_spec) "HOB_LIST" None ql1
      = (Return tt, ql2) ∧
    let C := efi_conf_table_data_next_ptr example_extended in
    let C2 := C + Z.of_nat (length data1) in
    efi_conf_table_array ql2 =
      (efi_conf_table_array example_extended
         ++ [{| VendorGuid := "eb9d2d31-2d88-11d3-9a16-0090273fc14d"; VendorTable := C |};
             {| VendorGuid := "7739f24c-93d7-11d4-9a3a-0090273fc14d";
                VendorTable := C2 |}])%list ∧
    efi_conf_table_data_next_ptr ql2 = C2 + Z.of_nat (length data2) ∧
    mem_read (mem ql2) C (length data1) = Some data1 ∧
    mem_read (mem ql2) C2 (length data2) = Some data2.
Proof.
  assert (length (efi_conf_table_array example_extended) + 2 ≤ 100)%nat as Hlen
    by (vm_compute; lia).
  apply (consecutive_payloads_are_adjacent (U := example_spec)
           (HU := example_spec_layout) "SMBIOS_TABLE" "HOB_LIST" example_extended
           example_smbios example_hob
           "eb9d2d31-2d88-11d3-9a16-0090273fc14d"
           "7739f24c-93d7-11d4-9a3a-0090273fc14d" "5F534D5f" "aabb"
           example_extended_laid_out Hlen);
    vm_compute; reflexivity.
Defined.

Lemma initialize_stops_at_hob_list_witness :
  profile example_blank !! "HOB_LIST" = None ∧
  initialize (U := example_spec) 0x10000000 example_blank
    = (Raise (KeyError "HOB_LIST"), prepared (U := example_spec) 0x10000000 example_blank).
Proof.
  split; [vm_compute; reflexivity|].
  destruct (initialize_stops_at_hob_list (U := example_spec) 0x10000000 example_blank)
    as (e & _ & Hrun & Hfault).
  - intros (hob & g1 & hexstr & H & _). vm_compute in H. discriminate.
  - destruct Hfault as [[_ ->]|(hob & H & _)]; [exact Hrun|].
    vm_compute in H. discriminate.
Defined.

Lemma initialize_stops_at_dxe_services_witness :
  ∃ e data ql',
    initialize (U := example_spec) 0x10000000 example_hob_only = (Raise e, ql') ∧
    ConfigurationNotFound e = true ∧
    unhexlify "aabb" = Return data ∧
    let L := layout (U := example_spec) 0x10000000 in
    let entry := {| VendorGuid := "7739f24c-93d7-11d4-9a3a-0090273fc14d";
                    VendorTable := conf_data L |} in
    efi_conf_table_array ql' = [entry] ∧
    efi_conf_table_data_next_ptr ql' = conf_data L + Z.of_nat (length data) ∧
    mem ql' =
      mem_write
        (mem_write (mem (prepared (U := example_spec) 0x10000000 example_hob_only))
           (conf_data L) data)
        (cfg L + 0 * EFI_CONFIGURATION_TABLE_sizeof (UefiSpec := example_spec))
        (EFI_CONFIGURATION_TABLE_bytes (UefiSpec := example_spec) entry).
Proof.
  apply (initialize_stops_at_dxe_services (U := example_spec) 0x10000000
           example_hob_only example_hob
           "7739f24c-93d7-11d4-9a3a-0090273fc14d" "aabb");
    [vm_compute; reflexivity..|].
  intros (dxe & g2 & H & _). vm_compute in H. discriminate.
Defined.

Lemma initialize_again_rebuilds_registry_witness :
  fst (initialize (U := example_spec) 0x10000000 example_booted) = Return tt ∧
  efi_conf_table_array
    (snd (initialize (U := example_spec) 0x10000000 example_booted))
    = efi_conf_table_array example_booted.
Proof.
  assert (fst (initialize (U := example_spec) 0x10000000 example_ql) = Return tt)
    as Hrun by (vm_compute; reflexivity).
  destruct (initialize_again_rebuilds_registry (U := example_spec) 0x10000000
              example_ql Hrun) as (Hagain & Hlist & _).
  split; [exact Hagain|exact Hlist].
Defined.

Lemma initialize_writes_three_regions_witness :
  mem (snd (initialize (U := example_spec) 0x10000000 example_ql)) !! 0x10000080 =
    ds_initialize (UefiSpec := example_spec) 0x10000238
      (rt_initialize (UefiSpec := example_spec) 0x100001C0
         (bs_initialize (UefiSpec := example_spec) 0x10000080 (mem example_ql)))
      !! 0x10000080.
Proof.
  assert (fst (initialize (U := example_spec) 0x10000000 example_ql) = Return tt)
    as Hrun by (vm_compute; reflexivity).
  apply (initialize_writes_three_regions (U := example_spec)
           (HU := example_spec_layout) 0x10000000 example_ql Hrun 0x10000080).
  - vm_compute. intros [_ Hlt]. discriminate.
  - vm_compute. intros [Hle _]. by apply Hle.
  - vm_compute. intros [Hle _]. by apply Hle.
Defined.

Lemma empty_payload_allocates_nothing_witness :
  ∃ ql',
    install_configuration_table (U := example_spec) "ACPI_TABLE" None example_extended
      = (Return tt, ql') ∧
    let entry := {| VendorGuid := "8868e871-e4f1-11d3-bc22-0080c73c8881";
                    VendorTable := efi_conf_table_data_next_ptr example_extended |} in
    efi_conf_table_array ql' = (efi_conf_table_array example_extended ++ [entry])%list ∧
    efi_conf_table_data_next_ptr ql' = efi_conf_table_data_next_ptr example_extended ∧
    mem ql' =
      mem_write (mem example_extended)
        (slot (U := example_spec) example_extended
           (length (efi_conf_table_array example_extended)))
        (EFI_CONFIGURATION_TABLE_bytes (UefiSpec := example_spec) entry).
Proof.
  apply (empty_payload_allocates_nothing (U := example_spec) "ACPI_TABLE"
           example_extended example_empty "8868e871-e4f1-11d3-bc22-0080c73c8881");
    vm_compute; reflexivity.
Defined.

Lemma payload_is_half_its_text_witness :
  ∃ (cfgtable : gmap string string) hexstr data,
    profile example_extended !! "SMBIOS_TABLE" = Some cfgtable ∧
    cfgtable !! "TableData" = Some hexstr ∧
    unhexlify hexstr = Return data ∧
    Forall (λ b, 0 ≤ b ≤ 255) data ∧
    efi_conf_table_data_next_ptr
      (snd (install_configuration_table (U := example_spec)
              "SMBIOS_TABLE" None example_extended)) =
      efi_conf_table_data_next_ptr example_extended + Z.of_nat (String.length hexstr) / 2.
Proof.
  apply (payload_is_half_its_text (U := example_spec) "SMBIOS_TABLE" example_extended).
  vm_compute. reflexivity.
Defined.
